(** * The Jira facade of [jira.py], embedded in Rocq

    [jira.py] wraps the [jira] client library behind one class, [Jira], which
    picks one of two configured servers ([Source.A], [Source.B]), builds the
    payload of a new ticket per server, and reshapes search results.

    The embedding follows the Python text statement by statement:
    - JSON-like Python values are the inductive [pyval]; a [dict] with string
      keys is an association list in insertion order;
    - a raised exception is the [Raise] case of [result];
    - attribute assignment, the class attribute [_instance] and the calls
      that leave the process are threaded through a state monad [M] over
      [world] (a heap of [Jira] objects, the class attribute, the log of
      outbound calls);
    - the [jira] library, [django.conf.settings] and [str()] of a value are
      collaborators outside the file and enter as Section variables.

    Private methods lose their leading underscores
    ([__create_ticket_in_a] is [create_ticket_in_a]). *)

From Stdlib Require Import String List ZArith Bool Lia.
Import ListNotations.
Local Open Scope string_scope.
Local Open Scope list_scope.

(** ** Python values *)

#[local] Set Warnings "-register-all".

Inductive pyval : Type :=
| PNone
| PBool (b : bool)
| PInt (z : Z)
| PStr (s : string)
| PList (l : list pyval)
| PDict (d : list (string * pyval)).

Definition pydict := list (string * pyval).

(** [d[k]] on a dict, as an option. *)
Fixpoint dict_lookup (k : string) (d : pydict) : option pyval :=
  match d with
  | [] => None
  | (k', v) :: d' => if String.eqb k k' then Some v else dict_lookup k d'
  end.

(** [k in d]. *)
Definition dict_contains (k : string) (d : pydict) : bool :=
  match dict_lookup k d with Some _ => true | None => false end.

(** [del d[k]]. *)
Definition dict_del (k : string) (d : pydict) : pydict :=
  filter (fun kv => negb (String.eqb k (fst kv))) d.

(** [d[k] = v]: an existing key keeps its position, a new one goes last. *)
Fixpoint dict_set (k : string) (v : pyval) (d : pydict) : pydict :=
  match d with
  | [] => [(k, v)]
  | (k', v') :: d' =>
      if String.eqb k k' then (k, v) :: d' else (k', v') :: dict_set k v d'
  end.

(** Truth value of an object in a condition. *)
Definition truthy (v : pyval) : bool :=
  match v with
  | PNone => false
  | PBool b => b
  | PInt z => negb (Z.eqb z 0)
  | PStr s => negb (String.eqb s "")
  | PList l => match l with [] => false | _ => true end
  | PDict d => match d with [] => false | _ => true end
  end.

(** ** Exceptions and results *)

Inductive exn : Type :=
| KeyError (key : string)
| IndexError
| ValueError (msg : string)
| TypeError
| AttributeError (attr : string)
| JIRAError (status_code : Z) (text : string).

Inductive result (A : Type) : Type :=
| Ok (a : A)
| Raise (e : exn).
Arguments Ok {A} a.
Arguments Raise {A} e.

(** [v[k]] with a string key [k]: only a dict accepts one. *)
Definition getitem (v : pyval) (k : string) : result pyval :=
  match v with
  | PDict d =>
      match dict_lookup k d with
      | Some x => Ok x
      | None => Raise (KeyError k)
      end
  | _ => Raise TypeError
  end.

(** [v.get(k, None)]: only a dict has the method. *)
Definition get (v : pyval) (k : string) : result pyval :=
  match v with
  | PDict d =>
      Ok (match dict_lookup k d with Some x => x | None => PNone end)
  | _ => Raise (AttributeError "get")
  end.

(** [for i in v]: the items a loop over [v] visits. *)
Fixpoint chars (s : string) : list pyval :=
  match s with
  | EmptyString => []
  | String c s' => PStr (String c EmptyString) :: chars s'
  end.

Definition iter (v : pyval) : result (list pyval) :=
  match v with
  | PList l => Ok l
  | PDict d => Ok (map (fun kv => PStr (fst kv)) d)
  | PStr s => Ok (chars s)
  | _ => Raise TypeError
  end.

(** [v.key] on a value of [pyval]: none of [None], [bool], [int], [str],
    [list], [dict] has an attribute of that name. *)
Definition getattr_key (v : pyval) : result pyval :=
  Raise (AttributeError "key").

(** ** The monad of statements: state and exceptions *)

Definition M (S A : Type) : Type := S -> result A * S.

Definition ret {S A} (a : A) : M S A := fun s => (Ok a, s).

Definition bind {S A B} (c : M S A) (k : A -> M S B) : M S B :=
  fun s =>
    match c s with
    | (Ok a, s') => k a s'
    | (Raise e, s') => (Raise e, s')
    end.

Definition raise {S A} (e : exn) : M S A := fun s => (Raise e, s).

Definition lift {S A} (r : result A) : M S A := fun s => (r, s).

Definition get_state {S} : M S S := fun s => (Ok s, s).

Definition put_state {S} (s : S) : M S unit := fun _ => (Ok tt, s).

Declare Scope py_scope.
Delimit Scope py_scope with py.
Notation "x <- c ;; k" := (bind c (fun x => k))
  (at level 61, c at next level, right associativity) : py_scope.
Notation "c ;;; k" := (bind c (fun _ => k))
  (at level 61, right associativity) : py_scope.
Notation "'let?' x := r 'in' k" :=
  (match r with Ok x => k | Raise e => Raise e end)
  (at level 10, x name, r at level 100, k at level 200) : py_scope.
Local Open Scope py_scope.

(** A block that works on a local object [s0] which nothing else holds: its
    final state is dropped with the block. *)
Definition with_local {S T A} (s0 : T) (c : M T A) : M S A :=
  fun s => (fst (c s0), s).

(** ** Collaborators *)

(** The enumeration [Source]. *)
Module Source.
Inductive t : Type := A | B.
End Source.

(** What a caller can pass as [source]: a member of [Source], or any other
    value.  [==] between a member and a value of another type is [False], so
    the string ["a"] is not [Source.A]. *)
Inductive source_arg : Type :=
| Src (s : Source.t)
| NotSource (v : pyval).

(** [request]: only [request.user.username] is read. *)
Record Request : Type := { user_username : string }.

(** One entry of [django.conf.settings]: [settings.A] or [settings.B]. *)
Record backend_settings : Type :=
  { cfg_url : string; cfg_username : string; cfg_password : string }.

Record Settings : Type :=
  { settings_A : backend_settings; settings_B : backend_settings }.

(** The arguments a [JIRA] client object is built from; the object stands for
    the authenticated session. *)
Record JIRA : Type :=
  { server : string;
    verify : bool;
    headers_contextUser : string;
    basic_auth : string * string }.

(** Resources the client library hands back. *)
Record Issue : Type := { key : string }.
Record Board : Type := { board_id : Z }.

(** Calls that leave the process, with the keyword arguments as written. *)
Inductive call : Type :=
| Connect (session : JIRA)
| CreateIssue (session : JIRA) (fields : pydict)
| AddComment (session : JIRA) (issue comment : pyval)
| Boards (session : JIRA) (projectKeyOrID : pyval)
| SearchIssues (session : JIRA) (jql fields startAt : pyval) (maxResults : Z).

(** The answer of the server, or the library's [JIRAError]. *)
Inductive reply (A : Type) : Type :=
| Accepted (a : A)
| Rejected (status_code : Z) (text : string).
Arguments Accepted {A} a.
Arguments Rejected {A} status_code text.

(** The servers behind the library: each answer may depend on the calls made
    so far. *)
Record Remote : Type :=
  { remote_connect : list call -> JIRA -> reply unit;
    remote_create_issue : list call -> JIRA -> pydict -> reply Issue;
    remote_add_comment : list call -> JIRA -> pyval -> pyval -> reply unit;
    remote_boards : list call -> JIRA -> pyval -> reply (list Board);
    remote_search_issues :
      list call -> JIRA -> pyval -> pyval -> pyval -> Z -> reply pydict }.

(** ** Objects of class [Jira] and the state of the process *)

(** An instance; an attribute not yet assigned is [None]. *)
Record jira_obj : Type :=
  { source : option source_arg;
    request : option Request;
    auth_jira : option JIRA }.

Definition new_obj : jira_obj :=
  {| source := None; request := None; auth_jira := None |}.

Record world : Type :=
  { heap : list jira_obj;           (* instances, by address *)
    _instance : option nat;         (* the class attribute [Jira._instance] *)
    log : list call }.              (* outbound calls, oldest first *)

(** A process in which the module has just been imported. *)
Definition fresh : world := {| heap := []; _instance := None; log := [] |}.

Fixpoint set_nth {A} (n : nat) (x : A) (l : list A) : list A :=
  match l, n with
  | [], _ => []
  | _ :: l', O => x :: l'
  | y :: l', S n' => y :: set_nth n' x l'
  end.

Definition update_obj (self : nat) (f : jira_obj -> jira_obj) : M world unit :=
  fun w =>
    match nth_error (heap w) self with
    | Some o =>
        (Ok tt, {| heap := set_nth self (f o) (heap w);
                   _instance := _instance w;
                   log := log w |})
    | None => (Ok tt, w)
    end.

(** [self.<attr>]: [AttributeError] while the attribute is unassigned. *)
Definition getattr {A} (name : string) (field : jira_obj -> option A)
    (self : nat) : M world A :=
  fun w =>
    match nth_error (heap w) self with
    | Some o =>
        match field o with
        | Some a => (Ok a, w)
        | None => (Raise (AttributeError name), w)
        end
    | None => (Raise (AttributeError name), w)
    end.

Definition set_source (self : nat) (v : source_arg) : M world unit :=
  update_obj self (fun o =>
    {| source := Some v; request := request o; auth_jira := auth_jira o |}).

Definition set_request (self : nat) (v : Request) : M world unit :=
  update_obj self (fun o =>
    {| source := source o; request := Some v; auth_jira := auth_jira o |}).

Definition set_auth_jira (self : nat) (v : JIRA) : M world unit :=
  update_obj self (fun o =>
    {| source := source o; request := request o; auth_jira := Some v |}).

(** The world once the call [c] has left the process. *)
Definition logged (w : world) (c : call) : world :=
  {| heap := heap w; _instance := _instance w; log := log w ++ [c] |}.

(** An outbound call: it is logged, then answered. *)
Definition outbound {A} (c : call) (answer : list call -> reply A)
  : M world A :=
  fun w =>
    match answer (log w) with
    | Accepted a => (Ok a, logged w c)
    | Rejected st tx => (Raise (JIRAError st tx), logged w c)
    end.

(** ** The class [Jira] *)

Section Facade.

(** [django.conf.settings], the servers, and [str()] as [str.format]
    applies it to an argument of a [{}] field. *)
Variable settings : Settings.
Variable remote : Remote.
Variable py_str : pyval -> string.

(** The library calls the class makes. *)
Definition JIRA_new (session : JIRA) : M world JIRA :=
  outbound (Connect session)
           (fun past => remote_connect remote past session) ;;;
  ret session.

Definition JIRA_create_issue (session : JIRA) (fields : pydict)
  : M world Issue :=
  outbound (CreateIssue session fields)
           (fun past => remote_create_issue remote past session fields).

Definition JIRA_add_comment (session : JIRA) (issue comment : pyval)
  : M world unit :=
  outbound (AddComment session issue comment)
           (fun past => remote_add_comment remote past session issue comment).

Definition JIRA_boards (session : JIRA) (projectKeyOrID : pyval)
  : M world (list Board) :=
  outbound (Boards session projectKeyOrID)
           (fun past => remote_boards remote past session projectKeyOrID).

Definition JIRA_search_issues (session : JIRA) (jql fields startAt : pyval)
    (maxResults : Z) : M world pydict :=
  outbound (SearchIssues session jql fields startAt maxResults)
           (fun past => remote_search_issues remote past session
                          jql fields startAt maxResults).

(** [__connect_to_b] *)
Definition connect_to_b (self : nat) : M world JIRA :=
  req <- getattr "request" request self ;;
  JIRA_new {| server := cfg_url (settings_B settings);
              verify := false;
              headers_contextUser := user_username req;
              basic_auth := (cfg_username (settings_B settings),
                             cfg_password (settings_B settings)) |}.

(** [__connect_to_a] *)
Definition connect_to_a (self : nat) : M world JIRA :=
  req <- getattr "request" request self ;;
  JIRA_new {| server := cfg_url (settings_A settings);
              verify := false;
              headers_contextUser := user_username req;
              basic_auth := (cfg_username (settings_A settings),
                             cfg_password (settings_A settings)) |}.

(** [__define_connection_source] *)
Definition define_connection_source (self : nat) : M world JIRA :=
  src <- getattr "source" source self ;;
  match src with
  | Src Source.A => connect_to_a self
  | Src Source.B => connect_to_b self
  | NotSource v => raise (ValueError ("Invalid source: " ++ py_str v))
  end.

(** [__new__] *)
Definition Jira_new : M world nat :=
  fun w =>
    match _instance w with
    | Some self => (Ok self, w)
    | None =>
        let self := length (heap w) in
        (Ok self, {| heap := heap w ++ [new_obj];
                     _instance := Some self;
                     log := log w |})
    end.

(** [__init__] *)
Definition Jira_init (self : nat) (req : Request) (src : source_arg)
  : M world unit :=
  set_source self src ;;;
  set_request self req ;;;
  session <- define_connection_source self ;;
  set_auth_jira self session.

(** The call [Jira(request, source)]: [__new__], then [__init__] on what it
    returned, then that object. *)
Definition Jira (req : Request) (src : source_arg) : M world nat :=
  self <- Jira_new ;;
  Jira_init self req src ;;;
  ret self.

(** [__create_ticket_in_a] *)
Definition create_ticket_in_a (self : nat) (data : pydict) : M world pyval :=
  jira <- getattr "auth_jira" auth_jira self ;;
  product_id <- lift (getitem (PDict data) "product_id") ;;
  name <- lift (getitem (PDict data) "name") ;;
  issue <- JIRA_create_issue jira
             [("project", PDict [("id", product_id)]);
              ("issuetype", PDict [("id", PInt 10001)]);
              ("summary", name)] ;;
  ret (PStr (key issue)).

(** [__create_ticket_in_b] *)
Definition create_ticket_in_b (self : nat) (data : pydict) : M world pyval :=
  jira <- getattr "auth_jira" auth_jira self ;;
  name <- lift (getitem (PDict data) "name") ;;
  req <- getattr "request" request self ;;
  as_a <- lift (getitem (PDict data) "as_a") ;;
  i_want <- lift (getitem (PDict data) "i_want") ;;
  so_that <- lift (getitem (PDict data) "so_that") ;;
  product <- lift (getitem (PDict data) "product") ;;
  product_name <- lift (get product "name") ;;
  is_high_priority <- lift (getitem (PDict data) "is_high_priority") ;;
  issue <- JIRA_create_issue jira
             [("project", PDict [("id", PInt 10407)]);
              ("issuetype", PDict [("id", PInt 16704)]);
              ("summary", name);
              ("reporter", PDict [("name", PStr (user_username req))]);
              ("customfield_23249",
                PStr (py_str as_a ++ " , " ++ py_str i_want ++ ", "
                        ++ py_str so_that));
              ("customfield_23250", product_name);
              ("priority",
                if truthy is_high_priority
                then PDict [("id", PStr "2")]
                else PDict [("id", PStr "4")])] ;;
  ret (PStr (key issue)).

(** [create_ticket]: the helper already returned [issue.key], a [str]; the
    [return issue.key] here asks that string for [.key]. *)
Definition create_ticket (self : nat) (data : pydict) : M world pyval :=
  src <- getattr "source" source self ;;
  issue <- match src with
           | Src Source.A => create_ticket_in_a self data
           | Src Source.B => create_ticket_in_b self data
           | NotSource v =>
               raise (ValueError ("Invalid source: " ++ py_str v))
           end ;;
  lift (getattr_key issue).

(** [add_comment] *)
Definition add_comment (self : nat) (comment issue_key : pyval)
  : M world unit :=
  jira <- getattr "auth_jira" auth_jira self ;;
  JIRA_add_comment jira issue_key comment.

(** [get_first_board] *)
Definition get_first_board (self : nat) (product_id : pyval) : M world Z :=
  jira <- getattr "auth_jira" auth_jira self ;;
  boards <- JIRA_boards jira product_id ;;
  match boards with
  | [] => raise IndexError
  | b :: _ => ret (board_id b)
  end.

(** [__normalize_jira_user_response]; [self] is not used. *)
Definition normalize_jira_user_response (jira_response : pyval)
  : result pyval :=
  let data := [] in
  let? name := getitem jira_response "name" in
  let data := dict_set "username" name data in
  let? email := getitem jira_response "emailAddress" in
  let data := dict_set "email" email data in
  let? urls := getitem jira_response "avatarUrls" in
  let? avatar := getitem urls "48x48" in
  let data := dict_set "avatar" avatar data in
  let? full_name := getitem jira_response "displayName" in
  let data := dict_set "full_name" full_name data in
  Ok (PDict data).

(** The body of the loop of [__normalize_jira_issues_response], for one
    raw issue [i]: the dict it appends. *)
Definition normalize_issue (i : pyval) : result pyval :=
  let issue := [] in
  let? k := getitem i "key" in
  let issue := dict_set "key" k issue in
  let? fields := getitem i "fields" in
  let? summary := getitem fields "summary" in
  let issue := dict_set "summary" summary issue in
  let? fields := getitem i "fields" in
  let? cond := get fields "reporter" in
  let? reporter :=
    if truthy cond
    then (let? fields := getitem i "fields" in
          let? raw := getitem fields "reporter" in
          normalize_jira_user_response raw)
    else Ok PNone in
  let issue := dict_set "reporter" reporter issue in
  let? fields := getitem i "fields" in
  let? status := getitem fields "status" in
  let? status_name := get status "name" in
  let issue := dict_set "status" status_name issue in
  let? fields := getitem i "fields" in
  let? priority := getitem fields "priority" in
  let? priority_name := get priority "name" in
  let issue := dict_set "priority" priority_name issue in
  let? fields := getitem i "fields" in
  let? created := get fields "created" in
  let issue := dict_set "created" created issue in
  Ok (PDict issue).

(** The loop: [issues] is the list built so far. *)
Fixpoint normalize_loop (items issues : list pyval) : result (list pyval) :=
  match items with
  | [] => Ok issues
  | i :: rest =>
      let? issue := normalize_issue i in
      normalize_loop rest (issues ++ [issue])
  end.

(** [__normalize_jira_issues_response]: the state is the dict
    [jira_response], which the method changes in place. *)
Definition normalize_jira_issues_response : M pydict pyval :=
  jira_response <- get_state ;;
  (if dict_contains "expand" jira_response
   then put_state (dict_del "expand" jira_response)
   else ret tt) ;;;
  jira_response <- get_state ;;
  raw <- lift (getitem (PDict jira_response) "issues") ;;
  items <- lift (iter raw) ;;
  issues <- lift (normalize_loop items []) ;;
  ret (PList issues).

(** [search_issues]: [res] is held by this call alone. *)
Definition search_issues (self : nat) (jql fields start_at : pyval)
  : M world pyval :=
  jira <- getattr "auth_jira" auth_jira self ;;
  res <- JIRA_search_issues jira jql fields start_at 10 ;;
  issues <- with_local res normalize_jira_issues_response ;;
  ret issues.

End Facade.

(** ** Transitions and sprints *)

(** A sprint as the library hands it back: the attributes the server's JSON
    gave it.  Reading an attribute it was not given raises
    [AttributeError]; a sprint that has not started carries no [startDate]
    and no [endDate]. *)
Definition Sprint := pydict.

Definition resource_getattr (r : pydict) (name : string) : result pyval :=
  match dict_lookup name r with
  | Some v => Ok v
  | None => Raise (AttributeError name)
  end.

Section Agile.

(** The library calls of this part, whatever they do to the world. *)
Variable JIRA_transition_issue : JIRA -> pyval -> pyval -> M world unit.
Variable JIRA_add_issues_to_sprint : JIRA -> pyval -> pyval -> M world unit.
Variable JIRA_sprints : JIRA -> pyval -> pyval -> M world (list Sprint).

(** [change_transition]: the library is called with [issue=issue_key],
    [transition=transition]. *)
Definition change_transition (self : nat) (transition issue_key : pyval)
  : M world unit :=
  jira <- getattr "auth_jira" auth_jira self ;;
  JIRA_transition_issue jira issue_key transition.

(** [add_issues_to_sprint] *)
Definition add_issues_to_sprint (self : nat) (sprint_id issue_keys : pyval)
  : M world unit :=
  jira <- getattr "auth_jira" auth_jira self ;;
  JIRA_add_issues_to_sprint jira sprint_id issue_keys.

(** The dict literal in the loop of [__sprint_serializer], for one sprint. *)
Definition sprint_entry (s : Sprint) : result pyval :=
  let? id := resource_getattr s "id" in
  let? name := resource_getattr s "name" in
  let? state := resource_getattr s "state" in
  let? startDate := resource_getattr s "startDate" in
  let? endDate := resource_getattr s "endDate" in
  Ok (PDict [("id", id); ("name", name); ("state", state);
             ("startDate", startDate); ("endDate", endDate)]).

(** The loop: [sprints] is the list built so far. *)
Fixpoint sprint_loop (data : list Sprint) (sprints : list pyval)
  : result (list pyval) :=
  match data with
  | [] => Ok sprints
  | s :: rest =>
      let? sprint := sprint_entry s in
      sprint_loop rest (sprints ++ [sprint])
  end.

(** [__sprint_serializer]; [self] is not used. *)
Definition sprint_serializer (data : list Sprint) : result pyval :=
  let? sprints := sprint_loop data [] in
  Ok (PList sprints).

(** [get_sprints] *)
Definition get_sprints (self : nat) (board_id state : pyval)
  : M world pyval :=
  jira <- getattr "auth_jira" auth_jira self ;;
  res <- JIRA_sprints jira board_id state ;;
  sprints <- lift (sprint_serializer res) ;;
  ret sprints.

End Agile.

(** ** A program that constructs facades *)

(** [Jira(request, source)] for each pair in turn, the caller going on after
    an exception: the world after the last call. *)
Fixpoint constructions (settings : Settings) (remote : Remote)
    (py_str : pyval -> string) (calls : list (Request * source_arg))
    (w : world) : world :=
  match calls with
  | [] => w
  | (req, src) :: rest =>
      constructions settings remote py_str rest
                    (snd (Jira settings remote py_str req src w))
  end.

(** ** A concrete process, for evaluation *)

Definition example_settings : Settings :=
  {| settings_A := {| cfg_url := "https://a.example"; cfg_username := "svc-a";
                      cfg_password := "pa" |};
     settings_B := {| cfg_url := "https://b.example"; cfg_username := "svc-b";
                      cfg_password := "pb" |} |}.

(** Servers that accept every call; they have one board per project, create
    the issue [T-1] and find nothing. *)
Definition example_remote : Remote :=
  {| remote_connect := fun _ _ => Accepted tt;
     remote_create_issue := fun _ _ _ => Accepted {| key := "T-1" |};
     remote_add_comment := fun _ _ _ _ => Accepted tt;
     remote_boards := fun _ _ _ => Accepted [{| board_id := 7 |}];
     remote_search_issues := fun _ _ _ _ _ _ =>
       Accepted [("startAt", PInt 0); ("issues", PList [])] |}.

(** [str()] on strings, [None] and booleans. *)
Definition example_str (v : pyval) : string :=
  match v with
  | PStr s => s
  | PNone => "None"
  | PBool true => "True"
  | PBool false => "False"
  | _ => "?"
  end.

Definition alice : Request := {| user_username := "alice" |}.
Definition bob : Request := {| user_username := "bob" |}.

(** Facades in a fresh process, for alice on A and on B. *)
Definition alice_on_a : world :=
  snd (Jira example_settings example_remote example_str
            alice (Src Source.A) fresh).

Definition alice_on_b : world :=
  snd (Jira example_settings example_remote example_str
            alice (Src Source.B) fresh).

(** Drafts. *)
Definition story_draft : pydict :=
  [("name", PStr "Export"); ("as_a", PStr "a"); ("i_want", PStr "b");
   ("so_that", PStr "c"); ("product", PDict [("name", PStr "Shop")]);
   ("is_high_priority", PBool true)].

Definition story_draft_unnamed_product : pydict :=
  [("name", PStr "Export"); ("as_a", PStr "a"); ("i_want", PStr "b");
   ("so_that", PStr "c"); ("product", PDict [("code", PInt 3)]);
   ("is_high_priority", PBool false)].

Definition task_draft : pydict :=
  [("name", PStr "Export"); ("product_id", PInt 10001)].

(** Servers on which the project has no board. *)
Definition no_boards_remote : Remote :=
  {| remote_connect := remote_connect example_remote;
     remote_create_issue := remote_create_issue example_remote;
     remote_add_comment := remote_add_comment example_remote;
     remote_boards := fun _ _ _ => Accepted [];
     remote_search_issues := remote_search_issues example_remote |}.

(** Raw issues of a search response. *)
Definition full_issue : pyval :=
  PDict [("key", PStr "K-1");
         ("fields",
           PDict [("summary", PStr "first");
                  ("reporter",
                    PDict [("name", PStr "alice");
                           ("emailAddress", PStr "alice@example.org");
                           ("avatarUrls", PDict [("48x48", PStr "a48.png")]);
                           ("displayName", PStr "Alice A.")]);
                  ("status", PDict [("name", PStr "Open")]);
                  ("priority", PDict [("name", PStr "High")]);
                  ("created", PStr "2024-01-01T00:00:00.000+0000")])].

Definition issue_without_reporter_created : pyval :=
  PDict [("key", PStr "K-2");
         ("fields",
           PDict [("summary", PStr "second");
                  ("status", PDict [("name", PStr "Open")]);
                  ("priority", PDict [("name", PStr "Low")])])].

Definition issue_without_status : pyval :=
  PDict [("key", PStr "K-3");
         ("fields",
           PDict [("summary", PStr "third");
                  ("priority", PDict [("name", PStr "Low")])])].

Definition issue_null_priority : pyval :=
  PDict [("key", PStr "K-4");
         ("fields",
           PDict [("summary", PStr "fourth");
                  ("status", PDict [("name", PStr "Open")]);
                  ("priority", PNone)])].

(** A search response as the server sends it. *)
Definition page (issues : list pyval) : pydict :=
  [("expand", PStr "schema,names"); ("startAt", PInt 0);
   ("maxResults", PInt 10); ("total", PInt 1); ("issues", PList issues)].

(** Servers that answer every search with the given issues. *)
Definition search_remote (issues : list pyval) : Remote :=
  {| remote_connect := remote_connect example_remote;
     remote_create_issue := remote_create_issue example_remote;
     remote_add_comment := remote_add_comment example_remote;
     remote_boards := remote_boards example_remote;
     remote_search_issues := fun _ _ _ _ _ _ => Accepted (page issues) |}.

(** Sprints of a board: one running, one that has not started. *)
Definition running_sprint : Sprint :=
  [("id", PInt 31); ("name", PStr "Sprint 31"); ("state", PStr "active");
   ("startDate", PStr "2024-01-01"); ("endDate", PStr "2024-01-14");
   ("goal", PStr "ship")].

Definition future_sprint : Sprint :=
  [("id", PInt 32); ("name", PStr "Sprint 32"); ("state", PStr "future")].

(** A library whose [sprints] call returns the given sprints and leaves the
    world alone. *)
Definition example_sprints (sprints : list Sprint)
  : JIRA -> pyval -> pyval -> M world (list Sprint) :=
  fun _ _ _ => ret sprints.

(** Servers that refuse every session. *)
Definition refusing_remote : Remote :=
  {| remote_connect := fun _ _ => Rejected 401 "Unauthorized";
     remote_create_issue := remote_create_issue example_remote;
     remote_add_comment := remote_add_comment example_remote;
     remote_boards := remote_boards example_remote;
     remote_search_issues := remote_search_issues example_remote |}.

(** A reporter whose e-mail address the server withholds. *)
Definition issue_hidden_email : pyval :=
  PDict [("key", PStr "K-6");
         ("fields",
           PDict [("summary", PStr "sixth");
                  ("reporter",
                    PDict [("name", PStr "carol");
                           ("avatarUrls", PDict [("48x48", PStr "c48.png")]);
                           ("displayName", PStr "Carol C.")]);
                  ("status", PDict [("name", PStr "Open")]);
                  ("priority", PDict [("name", PStr "High")])])].

(** All five attributes [__sprint_serializer] reads are there. *)
Definition sprint_complete (s : Sprint) : bool :=
  forallb (fun a => dict_contains a s)
          ["id"; "name"; "state"; "startDate"; "endDate"].

(** * Properties *)

(** ** Reading the state *)

Definition source_at (w : world) (self : nat) : option source_arg :=
  match nth_error (heap w) self with Some o => source o | None => None end.

Definition request_at (w : world) (self : nat) : option Request :=
  match nth_error (heap w) self with Some o => request o | None => None end.

Definition session_at (w : world) (self : nat) : option JIRA :=
  match nth_error (heap w) self with Some o => auth_jira o | None => None end.

(** [Jira._instance], when set, is the address of an object. *)
Definition wf_world (w : world) : bool :=
  match _instance w with
  | Some self => Nat.ltb self (length (heap w))
  | None => true
  end.

(** The session [__connect_to_a] / [__connect_to_b] asks for. *)
Definition session_of (settings : Settings) (s : Source.t) (req : Request)
  : JIRA :=
  let cfg := match s with
             | Source.A => settings_A settings
             | Source.B => settings_B settings
             end in
  {| server := cfg_url cfg;
     verify := false;
     headers_contextUser := user_username req;
     basic_auth := (cfg_username cfg, cfg_password cfg) |}.

(** An instance whose [__init__] ran to its end. *)
Definition bound_obj (settings : Settings) (s : Source.t) (req : Request)
  : jira_obj :=
  {| source := Some (Src s);
     request := Some req;
     auth_jira := Some (session_of settings s req) |}.

(** The payload of the last outbound call, when it creates an issue. *)
Definition last_payload (w : world) : option pydict :=
  match last (map Some (log w)) None with
  | Some (CreateIssue _ fields) => Some fields
  | _ => None
  end.




(** What [return issue.key] gives after [create_issue] was sent with the
    keyword arguments [fields] in world [w]: the key the server issued, or the server's error. *)
Definition issued (remote : Remote) (w : world) (session : JIRA)
    (fields : pydict) : result pyval * world :=
  (match remote_create_issue remote (log w) session fields with
   | Accepted issue => Ok (PStr (key issue))
   | Rejected st tx => Raise (JIRAError st tx)
   end,
   logged w (CreateIssue session fields)).

Lemma getattr_source w self v :
  source_at w self = Some v -> getattr "source" source self w = (Ok v, w).
Proof.
  unfold source_at, getattr. destruct (nth_error (heap w) self); [|discriminate].
  now intros ->.
Qed.

Lemma getattr_request w self v :
  request_at w self = Some v -> getattr "request" request self w = (Ok v, w).
Proof.
  unfold request_at, getattr. destruct (nth_error (heap w) self); [|discriminate].
  now intros ->.
Qed.

Lemma getattr_auth_jira w self v :
  session_at w self = Some v ->
  getattr "auth_jira" auth_jira self w = (Ok v, w).
Proof.
  unfold session_at, getattr. destruct (nth_error (heap w) self); [|discriminate].
  now intros ->.
Qed.

Lemma nth_error_set_nth {A} (l : list A) n x y :
  nth_error l n = Some y -> nth_error (set_nth n x l) n = Some x.
Proof.
  revert n; induction l as [|a l IH]; intros [|n]; simpl; try discriminate; auto.
Qed.

Lemma set_nth_twice {A} (l : list A) n x y :
  set_nth n x (set_nth n y l) = set_nth n x l.
Proof.
  revert n; induction l as [|a l IH]; intros [|n]; simpl; auto.
  now rewrite IH.
Qed.

Lemma length_set_nth {A} (l : list A) n x :
  length (set_nth n x l) = length l.
Proof.
  revert n; induction l as [|a l IH]; intros [|n]; simpl; auto.
Qed.

Lemma last_payload_logged w session fields :
  last_payload (logged w (CreateIssue session fields)) = Some fields.
Proof.
  unfold last_payload, logged; simpl.
  rewrite map_app; simpl map; now rewrite last_last.
Qed.

(** ** Running a sequence of statements *)

Lemma bind_Ok {S A B} (c : M S A) (k : A -> M S B) s a s' :
  c s = (Ok a, s') -> bind c k s = k a s'.
Proof. unfold bind; now intros ->. Qed.

Lemma bind_Raise {S A B} (c : M S A) (k : A -> M S B) s e s' :
  c s = (Raise e, s') -> bind c k s = (Raise e, s').
Proof. unfold bind; now intros ->. Qed.

Lemma update_obj_run w self f o :
  nth_error (heap w) self = Some o ->
  update_obj self f w =
  (Ok tt, {| heap := set_nth self (f o) (heap w);
             _instance := _instance w;
             log := log w |}).
Proof. unfold update_obj; now intros ->. Qed.

Lemma outbound_accepted {A} w c (answer : list call -> reply A) a :
  answer (log w) = Accepted a -> outbound c answer w = (Ok a, logged w c).
Proof. unfold outbound; now intros ->. Qed.

Lemma outbound_rejected {A} w c (answer : list call -> reply A) st tx :
  answer (log w) = Rejected st tx ->
  outbound c answer w = (Raise (JIRAError st tx), logged w c).
Proof. unfold outbound; now intros ->. Qed.

(** ** Construction *)

Section Construction.

Variable settings : Settings.
Variable remote : Remote.
Variable py_str : pyval -> string.

(** [__new__] hands out an address that holds an object. *)
Lemma Jira_new_allocated w :
  wf_world w = true ->
  exists self o w',
    Jira_new w = (Ok self, w') /\
    nth_error (heap w') self = Some o /\
    _instance w' = Some self /\
    log w' = log w /\
    (forall r, _instance w = Some r -> r = self /\ w' = w).
Proof.
  unfold wf_world, Jira_new. destruct (_instance w) as [r|] eqn:Hi.
  - intros Hlt. apply Nat.ltb_lt in Hlt.
    destruct (nth_error (heap w) r) as [o|] eqn:Hn.
    + exists r, o, w. repeat split; auto; congruence.
    + apply nth_error_None in Hn. lia.
  - intros _. exists (length (heap w)), new_obj. eexists.
    split; [reflexivity|]. simpl. repeat split; try discriminate.
    rewrite nth_error_app2, Nat.sub_diag by lia. reflexivity.
Qed.

(** [__connect_to_a] and [__connect_to_b], when the server accepts. *)
Lemma connect_run w self req s u :
  request_at w self = Some req ->
  remote_connect remote (log w) (session_of settings s req) = Accepted u ->
  match s with
  | Source.A => connect_to_a settings remote self w
  | Source.B => connect_to_b settings remote self w
  end = (Ok (session_of settings s req),
         logged w (Connect (session_of settings s req))).
Proof.
  intros Hreq Hacc.
  destruct s; unfold connect_to_a, connect_to_b;
    rewrite (bind_Ok _ _ _ _ _ (getattr_request _ _ _ Hreq));
    unfold JIRA_new;
    erewrite bind_Ok by (apply outbound_accepted; exact Hacc);
    reflexivity.
Qed.

(** [__init__] with a member of [Source], when the server accepts the
    session: the three attributes are those of this call. *)
Lemma Jira_init_bound w self o req s u :
  nth_error (heap w) self = Some o ->
  remote_connect remote (log w) (session_of settings s req) = Accepted u ->
  Jira_init settings remote py_str self req (Src s) w =
  (Ok tt,
   {| heap := set_nth self (bound_obj settings s req) (heap w);
      _instance := _instance w;
      log := log w ++ [Connect (session_of settings s req)] |}).
Proof.
  intros Ho Hacc. unfold Jira_init, set_source, set_request, set_auth_jira.
  rewrite (bind_Ok _ _ _ _ _ (update_obj_run _ _ _ _ Ho)).
  erewrite bind_Ok
    by (apply update_obj_run; cbn [heap]; eapply nth_error_set_nth, Ho).
  cbn [heap _instance log]. rewrite set_nth_twice.
  cbn [source request auth_jira].
  set (w2 := {| heap := _; _instance := _; log := _ |}).
  assert (Hn : nth_error (heap w2) self =
               Some {| source := Some (Src s); request := Some req;
                       auth_jira := auth_jira o |})
    by (eapply nth_error_set_nth, Ho).
  assert (Hs : source_at w2 self = Some (Src s))
    by (unfold source_at; now rewrite Hn).
  assert (Hr : request_at w2 self = Some req)
    by (unfold request_at; now rewrite Hn).
  unfold define_connection_source.
  erewrite bind_Ok; cycle 1.
  { rewrite (bind_Ok _ _ _ _ _ (getattr_source _ _ _ Hs)).
    generalize (connect_run w2 self req s u Hr Hacc).
    destruct s; intros E; exact E. }
  erewrite update_obj_run by (cbn [logged heap]; exact Hn).
  unfold logged, w2; cbn [heap _instance log source request auth_jira].
  now rewrite set_nth_twice.
Qed.

(** [__init__] with anything else: [ValueError], after [source] and
    [request] were assigned, before any call leaves the process. *)
Lemma Jira_init_invalid w self o req v :
  nth_error (heap w) self = Some o ->
  Jira_init settings remote py_str self req (NotSource v) w =
  (Raise (ValueError ("Invalid source: " ++ py_str v)),
   {| heap := set_nth self {| source := Some (NotSource v);
                              request := Some req;
                              auth_jira := auth_jira o |} (heap w);
      _instance := _instance w;
      log := log w |}).
Proof.
  intros Ho. unfold Jira_init, set_source, set_request.
  rewrite (bind_Ok _ _ _ _ _ (update_obj_run _ _ _ _ Ho)).
  erewrite bind_Ok
    by (apply update_obj_run; cbn [heap]; eapply nth_error_set_nth, Ho).
  cbn [heap _instance log]. rewrite set_nth_twice.
  cbn [source request auth_jira].
  set (w2 := {| heap := _; _instance := _; log := _ |}).
  assert (Hs : source_at w2 self = Some (NotSource v)).
  { unfold source_at, w2; cbn [heap].
    now rewrite (nth_error_set_nth _ _ _ _ Ho). }
  apply bind_Raise. unfold define_connection_source.
  now rewrite (bind_Ok _ _ _ _ _ (getattr_source _ _ _ Hs)).
Qed.

End Construction.

(** ** The singleton *)

Section Singleton.

Variable settings : Settings.
Variable remote : Remote.
Variable py_str : pyval -> string.

(** One construction with a member of [Source] that the server accepts. *)
Lemma Jira_bound w req s :
  wf_world w = true ->
  remote_connect remote (log w) (session_of settings s req) = Accepted tt ->
  exists self w',
    Jira settings remote py_str req (Src s) w = (Ok self, w') /\
    nth_error (heap w') self = Some (bound_obj settings s req) /\
    _instance w' = Some self /\
    wf_world w' = true /\
    log w' = log w ++ [Connect (session_of settings s req)] /\
    (forall r, _instance w = Some r ->
               r = self /\ length (heap w') = length (heap w)).
Proof.
  intros Hwf Hacc.
  destruct (Jira_new_allocated w Hwf) as (self & o & w0 & Hnew & Ho & Hi & Hl & Hsame).
  rewrite <- Hl in Hacc.
  exists self. eexists. unfold Jira.
  rewrite (bind_Ok _ _ _ _ _ Hnew).
  rewrite (bind_Ok _ _ _ _ _
             (Jira_init_bound settings remote py_str w0 self o req s tt Ho Hacc)).
  split; [reflexivity|]. cbn [heap _instance log].
  split; [eapply nth_error_set_nth, Ho|].
  split; [exact Hi|].
  split.
  - unfold wf_world; cbn [heap _instance]. rewrite Hi, length_set_nth.
    apply Nat.ltb_lt. apply nth_error_Some. congruence.
  - split; [now rewrite Hl|].
    intros r Hr. destruct (Hsame r Hr) as [-> ->].
    split; [reflexivity|apply length_set_nth].
Qed.

(** C1, as the code has it.  The class is a singleton: two constructions in a
    row, whatever their selectors and identities, return the same object, no
    second object is allocated, and after each construction that one object
    carries the selector, the identity and the session of that construction.
    The first reference therefore denotes, after the second construction, an
    object bound to the second selector and identity. *)
Theorem Jira_singleton_rebound w r1 s1 r2 s2 :
  wf_world w = true ->
  remote_connect remote (log w) (session_of settings s1 r1) = Accepted tt ->
  remote_connect remote (log w ++ [Connect (session_of settings s1 r1)])
                 (session_of settings s2 r2) = Accepted tt ->
  exists self w1 w2,
    Jira settings remote py_str r1 (Src s1) w = (Ok self, w1) /\
    Jira settings remote py_str r2 (Src s2) w1 = (Ok self, w2) /\
    nth_error (heap w1) self = Some (bound_obj settings s1 r1) /\
    nth_error (heap w2) self = Some (bound_obj settings s2 r2) /\
    length (heap w2) = length (heap w1) /\
    log w2 = log w ++ [Connect (session_of settings s1 r1);
                       Connect (session_of settings s2 r2)].
Proof.
  intros Hwf H1 H2.
  destruct (Jira_bound w r1 s1 Hwf H1)
    as (self & w1 & Hrun1 & Hobj1 & Hi1 & Hwf1 & Hlog1 & _).
  rewrite <- Hlog1 in H2.
  destruct (Jira_bound w1 r2 s2 Hwf1 H2)
    as (self' & w2 & Hrun2 & Hobj2 & _ & _ & Hlog2 & Hsame).
  destruct (Hsame self Hi1) as [<- Hlen].
  exists self, w1, w2. repeat split; auto.
  rewrite Hlog2, Hlog1, <- app_assoc. reflexivity.
Qed.

(** C9, as the code has it.  A selector that is no member of [Source] makes
    the construction raise [ValueError] (the spec's ConfigurationError): no
    object is returned, and no call has left the process, so no session was
    opened. *)
Theorem Jira_invalid_source_raises w req v :
  wf_world w = true ->
  exists w',
    Jira settings remote py_str req (NotSource v) w =
      (Raise (ValueError ("Invalid source: " ++ py_str v)), w') /\
    log w' = log w.
Proof.
  intros Hwf.
  destruct (Jira_new_allocated w Hwf) as (self & o & w0 & Hnew & Ho & _ & Hl & _).
  eexists. unfold Jira. rewrite (bind_Ok _ _ _ _ _ Hnew).
  erewrite bind_Raise by (apply Jira_init_invalid; exact Ho).
  split; [reflexivity|exact Hl].
Qed.

End Singleton.

Lemma Jira_singleton_rebound_witness :
  exists self w1 w2,
    Jira example_settings example_remote example_str alice (Src Source.A) fresh
      = (Ok self, w1) /\
    Jira example_settings example_remote example_str bob (Src Source.B) w1
      = (Ok self, w2) /\
    nth_error (heap w1) self = Some (bound_obj example_settings Source.A alice) /\
    nth_error (heap w2) self = Some (bound_obj example_settings Source.B bob) /\
    length (heap w2) = length (heap w1) /\
    log w2 = log fresh ++ [Connect (session_of example_settings Source.A alice);
                           Connect (session_of example_settings Source.B bob)].
Proof.
  apply (Jira_singleton_rebound example_settings example_remote example_str
           fresh alice Source.A bob Source.B); reflexivity.
Defined.

(** C1 fails in a fresh process: [Jira(alice, Source.A)] and then
    [Jira(bob, Source.B)] return the same address, and the session read
    through the first reference changes from A/alice to B/bob. *)
Lemma second_construction_replaces_first_session :
  let run1 := Jira example_settings example_remote example_str
                   alice (Src Source.A) fresh in
  let run2 := Jira example_settings example_remote example_str
                   bob (Src Source.B) (snd run1) in
  fst run1 = Ok 0%nat /\
  fst run2 = Ok 0%nat /\
  session_at (snd run1) 0 = Some (session_of example_settings Source.A alice) /\
  session_at (snd run2) 0 = Some (session_of example_settings Source.B bob) /\
  session_at (snd run2) 0 <> session_at (snd run1) 0.
Proof.
  cbv zeta. repeat split; try reflexivity. vm_compute. discriminate.
Qed.

Lemma Jira_invalid_source_raises_witness :
  exists w',
    Jira example_settings example_remote example_str
         bob (NotSource (PStr "c")) fresh =
      (Raise (ValueError ("Invalid source: " ++ example_str (PStr "c"))), w') /\
    log w' = log fresh.
Proof.
  apply (Jira_invalid_source_raises example_settings example_remote
           example_str fresh bob (PStr "c")); reflexivity.
Defined.

(** C9 fails on its last part.  After [Jira(alice, Source.A)], the call
    [Jira(bob, "c")] raises, yet the shared object is left with the rejected
    selector, bob's request and alice's session on A, and [add_comment]
    through it still reaches A.  In a fresh process the failed call leaves
    [Jira._instance] set to an object without a session. *)
Lemma failed_construction_leaves_instance :
  let w1 := snd (Jira example_settings example_remote example_str
                      alice (Src Source.A) fresh) in
  let run := Jira example_settings example_remote example_str
                  bob (NotSource (PStr "c")) w1 in
  let w2 := snd run in
  fst run = Raise (ValueError "Invalid source: c") /\
  _instance w2 = Some 0%nat /\
  nth_error (heap w2) 0 =
    Some {| source := Some (NotSource (PStr "c"));
            request := Some bob;
            auth_jira := Some (session_of example_settings Source.A alice) |} /\
  add_comment example_remote 0 (PStr "hi") (PStr "T-1") w2 =
    (Ok tt, logged w2 (AddComment (session_of example_settings Source.A alice)
                                  (PStr "T-1") (PStr "hi"))) /\
  snd (Jira example_settings example_remote example_str
            bob (NotSource (PStr "c")) fresh) =
    {| heap := [{| source := Some (NotSource (PStr "c"));
                   request := Some bob;
                   auth_jira := None |}];
       _instance := Some 0%nat;
       log := [] |}.
Proof.
  cbv zeta. repeat split; reflexivity.
Qed.


(** ** Ticket creation *)

Section Tickets.

Variable remote : Remote.
Variable py_str : pyval -> string.

Lemma JIRA_create_issue_key w session fields :
  (issue <- JIRA_create_issue remote session fields ;;
   ret (PStr (key issue))) w = issued remote w session fields.
Proof.
  unfold issued, JIRA_create_issue, bind, outbound, ret.
  now destruct (remote_create_issue remote (log w) session fields).
Qed.

(** [__create_ticket_in_a] on a draft that has both keys. *)
Lemma create_ticket_in_a_run self w session data product_id name :
  session_at w self = Some session ->
  dict_lookup "product_id" data = Some product_id ->
  dict_lookup "name" data = Some name ->
  create_ticket_in_a remote self data w =
  issued remote w session
         [("project", PDict [("id", product_id)]);
          ("issuetype", PDict [("id", PInt 10001)]);
          ("summary", name)].
Proof.
  intros Hs Hp Hn. unfold create_ticket_in_a.
  rewrite (bind_Ok _ _ _ _ _ (getattr_auth_jira _ _ _ Hs)).
  unfold getitem, lift. rewrite Hp, Hn. unfold bind at 1 2.
  apply JIRA_create_issue_key.
Qed.

(** [__create_ticket_in_b] on a draft that has all six keys and a mapping as
    product. *)
Lemma create_ticket_in_b_run self w session req data
      name as_a i_want so_that product hp :
  session_at w self = Some session ->
  request_at w self = Some req ->
  dict_lookup "name" data = Some name ->
  dict_lookup "as_a" data = Some as_a ->
  dict_lookup "i_want" data = Some i_want ->
  dict_lookup "so_that" data = Some so_that ->
  dict_lookup "product" data = Some (PDict product) ->
  dict_lookup "is_high_priority" data = Some hp ->
  create_ticket_in_b remote py_str self data w =
  issued remote w session
         [("project", PDict [("id", PInt 10407)]);
          ("issuetype", PDict [("id", PInt 16704)]);
          ("summary", name);
          ("reporter", PDict [("name", PStr (user_username req))]);
          ("customfield_23249",
            PStr (py_str as_a ++ " , " ++ py_str i_want ++ ", "
                    ++ py_str so_that));
          ("customfield_23250",
            match dict_lookup "name" product with
            | Some x => x
            | None => PNone
            end);
          ("priority", PDict [("id", PStr (if truthy hp then "2" else "4"))])].
Proof.
  intros Hs Hr Hn Ha Hi Ht Hp Hh. unfold create_ticket_in_b.
  rewrite (bind_Ok _ _ _ _ _ (getattr_auth_jira _ _ _ Hs)).
  unfold getitem, lift. rewrite Hn. unfold bind at 1.
  rewrite (bind_Ok _ _ _ _ _ (getattr_request _ _ _ Hr)).
  rewrite Ha, Hi, Ht, Hp, Hh. unfold get. unfold bind at 1 2 3 4 5 6.
  rewrite JIRA_create_issue_key. now destruct (truthy hp).
Qed.

(** [create_ticket] around a helper: the world is the helper's, an exception
    of the helper passes through, and a returned key meets [.key]. *)
Lemma create_ticket_dispatch self w s data r w' :
  source_at w self = Some (Src s) ->
  match s with
  | Source.A => create_ticket_in_a remote self data w
  | Source.B => create_ticket_in_b remote py_str self data w
  end = (r, w') ->
  create_ticket remote py_str self data w =
  (match r with
   | Ok _ => Raise (AttributeError "key")
   | Raise e => Raise e
   end, w').
Proof.
  intros Hsrc Hrun. unfold create_ticket.
  rewrite (bind_Ok _ _ _ _ _ (getattr_source _ _ _ Hsrc)).
  unfold bind. destruct s; rewrite Hrun; now destruct r.
Qed.


(** C7.  With selector A, a draft that has [product_id] and [name] makes
    [create_ticket] send one [create_issue] call whose keyword arguments are
    exactly project.id = draft.product_id, issuetype.id = 10001 and
    summary = draft.name: no reporter, no custom field, no priority. *)
Theorem create_ticket_a_payload self w session data product_id name :
  source_at w self = Some (Src Source.A) ->
  session_at w self = Some session ->
  dict_lookup "product_id" data = Some product_id ->
  dict_lookup "name" data = Some name ->
  snd (create_ticket remote py_str self data w) =
  logged w (CreateIssue session
              [("project", PDict [("id", product_id)]);
               ("issuetype", PDict [("id", PInt 10001)]);
               ("summary", name)]).
Proof.
  intros Hsrc Hs Hp Hn.
  erewrite (create_ticket_dispatch self w Source.A)
    by (try exact Hsrc; apply create_ticket_in_a_run; eassumption).
  reflexivity.
Qed.

(** C5.  With selector B, a draft that has the six keys, strings as its
    story parts and a product with a name makes [create_ticket] send one
    [create_issue] call with project.id = 10407, issuetype.id = 16704,
    summary = draft.name, reporter = the caller's username,
    customfield_23249 = "X , Y, Z", customfield_23250 = draft.product.name,
    and priority.id = "2" when draft.is_high_priority is true, "4" when not. *)
Theorem create_ticket_b_payload self w session req data
        name X Y Z product product_name hp :
  (forall s, py_str (PStr s) = s) ->
  source_at w self = Some (Src Source.B) ->
  session_at w self = Some session ->
  request_at w self = Some req ->
  dict_lookup "name" data = Some name ->
  dict_lookup "as_a" data = Some (PStr X) ->
  dict_lookup "i_want" data = Some (PStr Y) ->
  dict_lookup "so_that" data = Some (PStr Z) ->
  dict_lookup "product" data = Some (PDict product) ->
  dict_lookup "name" product = Some product_name ->
  dict_lookup "is_high_priority" data = Some hp ->
  snd (create_ticket remote py_str self data w) =
  logged w (CreateIssue session
              [("project", PDict [("id", PInt 10407)]);
               ("issuetype", PDict [("id", PInt 16704)]);
               ("summary", name);
               ("reporter", PDict [("name", PStr (user_username req))]);
               ("customfield_23249", PStr (X ++ " , " ++ Y ++ ", " ++ Z));
               ("customfield_23250", product_name);
               ("priority",
                 PDict [("id", PStr (if truthy hp then "2" else "4"))])]).
Proof.
  intros Hstr Hsrc Hs Hr Hn Ha Hi Ht Hp Hpn Hh.
  erewrite (create_ticket_dispatch self w Source.B)
    by (try exact Hsrc; eapply create_ticket_in_b_run; eassumption).
  rewrite Hpn, !Hstr. reflexivity.
Qed.

(** C6, as the code has it.  With selector B and such a draft, the composite
    field customfield_23249 that [create_ticket] sends is draft.as_a, then
    " , " (space, comma, space), then draft.i_want, then ", " (comma, space),
    then draft.so_that. *)
Theorem create_ticket_b_composite_field self w session req data
        name X Y Z product hp :
  (forall s, py_str (PStr s) = s) ->
  source_at w self = Some (Src Source.B) ->
  session_at w self = Some session ->
  request_at w self = Some req ->
  dict_lookup "name" data = Some name ->
  dict_lookup "as_a" data = Some (PStr X) ->
  dict_lookup "i_want" data = Some (PStr Y) ->
  dict_lookup "so_that" data = Some (PStr Z) ->
  dict_lookup "product" data = Some (PDict product) ->
  dict_lookup "is_high_priority" data = Some hp ->
  exists fields,
    snd (create_ticket remote py_str self data w) =
      logged w (CreateIssue session fields) /\
    dict_lookup "customfield_23249" fields =
      Some (PStr (X ++ " , " ++ Y ++ ", " ++ Z)).
Proof.
  intros Hstr Hsrc Hs Hr Hn Ha Hi Ht Hp Hh.
  erewrite (create_ticket_dispatch self w Source.B)
    by (try exact Hsrc; eapply create_ticket_in_b_run; eassumption).
  eexists; split; [reflexivity|]. rewrite !Hstr. reflexivity.
Qed.

(** With selector B, a draft whose product is a mapping without ["name"]
    raises nothing in [__create_ticket_in_b]: the call is sent with
    customfield_23250 = None and the helper returns what the server answers
    (the issued key, or the server's error); through [create_ticket] the
    same call leaves the process. *)
Lemma create_ticket_in_b_product_without_name self w session req data
        name as_a i_want so_that product hp :
  source_at w self = Some (Src Source.B) ->
  session_at w self = Some session ->
  request_at w self = Some req ->
  dict_lookup "name" data = Some name ->
  dict_lookup "as_a" data = Some as_a ->
  dict_lookup "i_want" data = Some i_want ->
  dict_lookup "so_that" data = Some so_that ->
  dict_lookup "product" data = Some (PDict product) ->
  dict_lookup "name" product = None ->
  dict_lookup "is_high_priority" data = Some hp ->
  exists fields,
    create_ticket_in_b remote py_str self data w =
      issued remote w session fields /\
    snd (create_ticket remote py_str self data w) =
      logged w (CreateIssue session fields) /\
    dict_lookup "customfield_23250" fields = Some PNone.
Proof.
  intros Hsrc Hs Hr Hn Ha Hi Ht Hp Hpn Hh.
  pose proof (create_ticket_in_b_run self w session req data
                name as_a i_want so_that product hp
                Hs Hr Hn Ha Hi Ht Hp Hh) as Hrun.
  rewrite Hpn in Hrun.
  eexists. split; [exact Hrun|]. split.
  - erewrite (create_ticket_dispatch self w Source.B)
      by (try exact Hsrc; exact Hrun).
    reflexivity.
  - reflexivity.
Qed.


End Tickets.

Lemma create_ticket_a_payload_witness :
  snd (create_ticket example_remote example_str 0 task_draft alice_on_a) =
  logged alice_on_a
         (CreateIssue (session_of example_settings Source.A alice)
            [("project", PDict [("id", PInt 10001)]);
             ("issuetype", PDict [("id", PInt 10001)]);
             ("summary", PStr "Export")]).
Proof.
  apply (create_ticket_a_payload example_remote example_str 0 alice_on_a
           (session_of example_settings Source.A alice) task_draft);
    reflexivity.
Defined.

Lemma create_ticket_b_payload_witness :
  snd (create_ticket example_remote example_str 0 story_draft alice_on_b) =
  logged alice_on_b
         (CreateIssue (session_of example_settings Source.B alice)
            [("project", PDict [("id", PInt 10407)]);
             ("issuetype", PDict [("id", PInt 16704)]);
             ("summary", PStr "Export");
             ("reporter", PDict [("name", PStr "alice")]);
             ("customfield_23249", PStr "a , b, c");
             ("customfield_23250", PStr "Shop");
             ("priority", PDict [("id", PStr "2")])]).
Proof.
  apply (create_ticket_b_payload example_remote example_str 0 alice_on_b
           (session_of example_settings Source.B alice) alice story_draft
           (PStr "Export") "a" "b" "c" [("name", PStr "Shop")] (PStr "Shop")
           (PBool true));
    reflexivity.
Defined.

Lemma create_ticket_b_composite_field_witness :
  exists fields,
    snd (create_ticket example_remote example_str 0 story_draft alice_on_b) =
      logged alice_on_b
             (CreateIssue (session_of example_settings Source.B alice) fields) /\
    dict_lookup "customfield_23249" fields = Some (PStr "a , b, c").
Proof.
  apply (create_ticket_b_composite_field example_remote example_str 0
           alice_on_b (session_of example_settings Source.B alice) alice
           story_draft (PStr "Export") "a" "b" "c" [("name", PStr "Shop")]
           (PBool true));
    reflexivity.
Defined.

(** C6 fails on the draft with parts "a", "b", "c": the field sent is
    "a , b, c", which is not the three parts joined with ", ". *)
Lemma composite_field_is_not_a_plain_join :
  exists fields,
    last_payload
      (snd (create_ticket example_remote example_str 0 story_draft alice_on_b))
      = Some fields /\
    dict_lookup "customfield_23249" fields = Some (PStr "a , b, c") /\
    dict_lookup "customfield_23249" fields
      <> Some (PStr (String.concat ", " ["a"; "b"; "c"])).
Proof.
  eexists. split; [reflexivity|]. split; [reflexivity|].
  vm_compute. discriminate.
Qed.



(** C10, on the code.  The draft has a product without "name" and the
    server creates the issue T-1.  [__create_ticket_in_b] raises nothing:
    it sends customfield_23250 = None and returns the key.  [create_ticket]
    then reads [.key] of that key and raises [AttributeError], after the
    request has left the process.  The same draft without "so_that" raises
    [KeyError] with nothing sent. *)
Theorem create_ticket_unnamed_product_raises_after_send :
  let session := session_of example_settings Source.B alice in
  let fields := [("project", PDict [("id", PInt 10407)]);
                 ("issuetype", PDict [("id", PInt 16704)]);
                 ("summary", PStr "Export");
                 ("reporter", PDict [("name", PStr "alice")]);
                 ("customfield_23249", PStr "a , b, c");
                 ("customfield_23250", PNone);
                 ("priority", PDict [("id", PStr "4")])] in
  create_ticket_in_b example_remote example_str 0
                     story_draft_unnamed_product alice_on_b =
    (Ok (PStr "T-1"), logged alice_on_b (CreateIssue session fields)) /\
  create_ticket example_remote example_str 0
                story_draft_unnamed_product alice_on_b =
    (Raise (AttributeError "key"),
     logged alice_on_b (CreateIssue session fields)) /\
  create_ticket example_remote example_str 0
                [("name", PStr "Export"); ("as_a", PStr "a");
                 ("i_want", PStr "b"); ("product", PDict [("code", PInt 3)]);
                 ("is_high_priority", PBool false)]
                alice_on_b =
    (Raise (KeyError "so_that"), alice_on_b).
Proof. cbv zeta. repeat split; reflexivity. Qed.

(** ** Boards *)

Section Boards.

Variable remote : Remote.

(** C2, as the code has it.  [get_first_board] asks for the listing once.
    When the listing is empty it raises the plain [IndexError] of the
    subscript [[0]]; when it is not, it returns the id of the first board in
    the order the server gave; an error of the server passes through. *)
Theorem get_first_board_first_or_IndexError self w session product_id :
  session_at w self = Some session ->
  get_first_board remote self product_id w =
  (match remote_boards remote (log w) session product_id with
   | Accepted [] => Raise IndexError
   | Accepted (b :: _) => Ok (board_id b)
   | Rejected st tx => Raise (JIRAError st tx)
   end,
   logged w (Boards session product_id)).
Proof.
  intros Hs. unfold get_first_board.
  rewrite (bind_Ok _ _ _ _ _ (getattr_auth_jira _ _ _ Hs)).
  unfold JIRA_boards, bind, outbound.
  destruct (remote_boards remote (log w) session product_id) as [[|b rest]|];
    reflexivity.
Qed.

End Boards.

Lemma get_first_board_first_or_IndexError_witness :
  get_first_board example_remote 0 (PInt 10001) alice_on_a =
  (Ok 7%Z,
   logged alice_on_a
          (Boards (session_of example_settings Source.A alice) (PInt 10001))).
Proof.
  apply (get_first_board_first_or_IndexError example_remote 0 alice_on_a
           (session_of example_settings Source.A alice) (PInt 10001)).
  reflexivity.
Defined.

(** C2 fails on a project without boards: what [get_first_board] raises is
    the index fault itself. *)
Lemma get_first_board_empty_is_index_fault :
  remote_boards no_boards_remote (log alice_on_a)
                (session_of example_settings Source.A alice) (PInt 10001)
    = Accepted [] /\
  fst (get_first_board no_boards_remote 0 (PInt 10001) alice_on_a)
    = Raise IndexError.
Proof. split; reflexivity. Qed.

(** ** Search *)

Lemma dict_del_absent k d : dict_lookup k d = None -> dict_del k d = d.
Proof.
  induction d as [|[k' v] d IH]; simpl; [reflexivity|].
  destruct (String.eqb k k'); [discriminate|].
  intros H. simpl. now rewrite IH.
Qed.

(** The response object after the normalizer ran, whatever it returned: the
    response without ["expand"], every other key in place. *)
Lemma normalize_response_state (jira_response : pydict) :
  snd (normalize_jira_issues_response jira_response) =
  dict_del "expand" jira_response.
Proof.
  unfold normalize_jira_issues_response, bind, get_state, put_state, ret,
    lift, dict_contains.
  destruct (dict_lookup "expand" jira_response) eqn:He.
  - destruct (getitem _ "issues") as [raw|]; [|reflexivity].
    destruct (iter raw) as [items|]; [|reflexivity].
    now destruct (normalize_loop items []).
  - rewrite (dict_del_absent _ _ He).
    destruct (getitem _ "issues") as [raw|]; [|reflexivity].
    destruct (iter raw) as [items|]; [|reflexivity].
    now destruct (normalize_loop items []).
Qed.

(** What the normalizer returns is a list. *)
Lemma normalize_response_value (jira_response : pydict) v :
  fst (normalize_jira_issues_response jira_response) = Ok v ->
  exists issues, v = PList issues.
Proof.
  unfold normalize_jira_issues_response, bind, get_state, put_state, ret, lift.
  destruct (dict_contains "expand" jira_response);
    (destruct (getitem _ "issues") as [raw|]; [|discriminate]);
    (destruct (iter raw) as [items|]; [|discriminate]);
    (destruct (normalize_loop items []) as [l|]; [|discriminate]);
    simpl; intros [= <-]; now exists l.
Qed.

(** What [search_issues] returns is that list: no value it returns has a
    key of the response. *)
Lemma search_issues_value remote self jql fields start_at w v :
  fst (search_issues remote self jql fields start_at w) = Ok v ->
  exists issues, v = PList issues.
Proof.
  unfold search_issues, bind, with_local, ret.
  destruct (getattr "auth_jira" auth_jira self w) as [[jira|] w1];
    [|discriminate].
  destruct (JIRA_search_issues remote jira jql fields start_at 10 w1)
    as [[res|] w2]; [|discriminate].
  cbn [fst]. pose proof (normalize_response_value res) as Hv.
  destruct (fst (normalize_jira_issues_response res)); [|discriminate].
  cbn [fst]. intros [= <-]. now apply Hv.
Qed.

(** An issue whose reporter is absent or null and whose [fields] carry a
    summary and mappings for status and priority: reporter is [None], and
    [created] is [None] when absent. *)
Lemma normalize_issue_without_reporter i k fields summary status priority :
  dict_lookup "key" i = Some k ->
  dict_lookup "fields" i = Some (PDict fields) ->
  dict_lookup "summary" fields = Some summary ->
  (dict_lookup "reporter" fields = None \/
   dict_lookup "reporter" fields = Some PNone) ->
  dict_lookup "status" fields = Some (PDict status) ->
  dict_lookup "priority" fields = Some (PDict priority) ->
  normalize_issue (PDict i) =
  Ok (PDict [("key", k);
             ("summary", summary);
             ("reporter", PNone);
             ("status", match dict_lookup "name" status with
                        | Some x => x | None => PNone end);
             ("priority", match dict_lookup "name" priority with
                          | Some x => x | None => PNone end);
             ("created", match dict_lookup "created" fields with
                         | Some x => x | None => PNone end)]).
Proof.
  intros Hk Hf Hs Hr Hst Hp. unfold normalize_issue, getitem, get.
  rewrite Hk, Hf, Hs, Hst, Hp.
  destruct Hr as [-> | ->]; reflexivity.
Qed.

(** C3, on the code.  The server answers with a page that has "expand",
    "startAt", "maxResults", "total" and one issue.  [search_issues] returns
    the list of normalized issues and nothing else: the value has no
    "startAt", "maxResults" or "total".  The response stripped of "expand"
    exists only inside the call. *)
Theorem search_issues_returns_list_only :
  let v := PList [PDict [("key", PStr "K-1");
                         ("summary", PStr "first");
                         ("reporter",
                           PDict [("username", PStr "alice");
                                  ("email", PStr "alice@example.org");
                                  ("avatar", PStr "a48.png");
                                  ("full_name", PStr "Alice A.")]);
                         ("status", PStr "Open");
                         ("priority", PStr "High");
                         ("created", PStr "2024-01-01T00:00:00.000+0000")]] in
  fst (search_issues (search_remote [full_issue]) 0 (PStr "project = K")
                     (PList [PStr "summary"]) (PInt 0) alice_on_a) = Ok v /\
  getitem v "startAt" = Raise TypeError /\
  getitem v "maxResults" = Raise TypeError /\
  getitem v "total" = Raise TypeError /\
  getitem v "issues" = Raise TypeError /\
  snd (normalize_jira_issues_response (page [full_issue])) =
    [("startAt", PInt 0); ("maxResults", PInt 10); ("total", PInt 1);
     ("issues", PList [full_issue])].
Proof. cbv zeta. repeat split; reflexivity. Qed.

(** C4, on the code.  An issue without "status" makes the normalizer raise
    [KeyError], one without "priority" too, and one whose priority is null
    makes it raise [AttributeError]; the well-formed issue after it in the
    batch is lost with it, also through [search_issues].  An issue without
    reporter and created is normalized with both as [None]. *)
Theorem normalizer_raises_without_status_or_priority :
  fst (normalize_jira_issues_response (page [issue_without_status; full_issue]))
    = Raise (KeyError "status") /\
  fst (normalize_jira_issues_response
         (page [PDict [("key", PStr "K-5");
                       ("fields",
                         PDict [("summary", PStr "fifth");
                                ("status", PDict [("name", PStr "Open")])])];
                full_issue]))
    = Raise (KeyError "priority") /\
  fst (normalize_jira_issues_response (page [issue_null_priority; full_issue]))
    = Raise (AttributeError "get") /\
  fst (search_issues (search_remote [issue_without_status; full_issue]) 0
                     (PStr "project = K") (PList [PStr "summary"]) (PInt 0)
                     alice_on_a)
    = Raise (KeyError "status") /\
  fst (normalize_jira_issues_response (page [issue_without_reporter_created]))
    = Ok (PList [PDict [("key", PStr "K-2");
                        ("summary", PStr "second");
                        ("reporter", PNone);
                        ("status", PStr "Open");
                        ("priority", PStr "Low");
                        ("created", PNone)]]).
Proof. repeat split; reflexivity. Qed.

(** ** The value of [create_ticket] *)

(** [create_ticket] does not return: when the helper returned the issued
    key, the second [.key] raises [AttributeError]; the request itself has
    left the process by then. *)
Lemma create_ticket_never_returns remote py_str self data w v :
  fst (create_ticket remote py_str self data w) <> Ok v.
Proof.
  unfold create_ticket, bind, lift, getattr_key.
  destruct (getattr "source" source self w) as [[src|e] w1];
    [|discriminate].
  destruct src as [[|]|x].
  - destruct (create_ticket_in_a remote self data w1) as [[i|e] w2];
      discriminate.
  - destruct (create_ticket_in_b remote py_str self data w1) as [[i|e] w2];
      discriminate.
  - discriminate.
Qed.

(** * Further properties of the class *)

(** ** Sprints *)

Lemma sprint_loop_all data outs sprints :
  map sprint_entry data = map Ok outs ->
  sprint_loop data sprints = Ok (sprints ++ outs).
Proof.
  revert outs sprints; induction data as [|s data IH]; intros [|o outs] acc;
    simpl; try discriminate.
  - intros _. now rewrite app_nil_r.
  - intros [= -> Hrest]. rewrite (IH _ _ Hrest), <- app_assoc. reflexivity.
Qed.

Lemma sprint_loop_stops pre s post outs e sprints :
  map sprint_entry pre = map Ok outs ->
  sprint_entry s = Raise e ->
  sprint_loop (pre ++ s :: post) sprints = Raise e.
Proof.
  revert outs sprints; induction pre as [|p pre IH]; intros [|o outs] acc;
    simpl; try discriminate.
  - intros _ ->. reflexivity.
  - intros [= -> Hrest] He. now apply (IH outs).
Qed.

(** A complete sprint gives its five-key dict. *)
Lemma sprint_entry_complete s :
  sprint_complete s = true ->
  exists id name state startDate endDate,
    dict_lookup "id" s = Some id /\
    dict_lookup "name" s = Some name /\
    dict_lookup "state" s = Some state /\
    dict_lookup "startDate" s = Some startDate /\
    dict_lookup "endDate" s = Some endDate /\
    sprint_entry s =
      Ok (PDict [("id", id); ("name", name); ("state", state);
                 ("startDate", startDate); ("endDate", endDate)]).
Proof.
  unfold sprint_complete, sprint_entry, resource_getattr, dict_contains.
  cbn [forallb].
  destruct (dict_lookup "id" s) as [a|]; [|discriminate].
  destruct (dict_lookup "name" s) as [b|]; [|discriminate].
  destruct (dict_lookup "state" s) as [c|]; [|discriminate].
  destruct (dict_lookup "startDate" s) as [d|]; [|discriminate].
  destruct (dict_lookup "endDate" s) as [e|]; [|discriminate].
  intros _. exists a, b, c, d, e. repeat split; reflexivity.
Qed.

(** An incomplete sprint raises for an attribute it lacks. *)
Lemma sprint_entry_incomplete s :
  sprint_complete s = false ->
  exists a,
    In a ["id"; "name"; "state"; "startDate"; "endDate"] /\
    dict_lookup a s = None /\
    sprint_entry s = Raise (AttributeError a).
Proof.
  unfold sprint_complete, sprint_entry, resource_getattr, dict_contains.
  cbn [forallb].
  destruct (dict_lookup "id" s) as [a|] eqn:H1; cycle 1.
  { exists "id". cbn; auto. }
  destruct (dict_lookup "name" s) as [b|] eqn:H2; cycle 1.
  { exists "name". cbn; auto. }
  destruct (dict_lookup "state" s) as [c|] eqn:H3; cycle 1.
  { exists "state". cbn; auto. }
  destruct (dict_lookup "startDate" s) as [d|] eqn:H4; cycle 1.
  { exists "startDate". cbn; auto 10. }
  destruct (dict_lookup "endDate" s) as [e|] eqn:H5; cycle 1.
  { exists "endDate". cbn; auto 10. }
  discriminate.
Qed.

Lemma sprint_entries_complete data :
  forallb sprint_complete data = true ->
  exists outs,
    map sprint_entry data = map Ok outs /\
    Forall2 (fun s o =>
               exists id name state startDate endDate,
                 dict_lookup "id" s = Some id /\
                 dict_lookup "name" s = Some name /\
                 dict_lookup "state" s = Some state /\
                 dict_lookup "startDate" s = Some startDate /\
                 dict_lookup "endDate" s = Some endDate /\
                 o = PDict [("id", id); ("name", name); ("state", state);
                            ("startDate", startDate); ("endDate", endDate)])
            data outs.
Proof.
  induction data as [|s data IH]; simpl.
  - intros _. exists []. split; [reflexivity|constructor].
  - intros H. apply andb_prop in H as [Hs Hd].
    destruct (IH Hd) as (outs & Hmap & Hall).
    destruct (sprint_entry_complete s Hs)
      as (a & b & c & d & e & Ha & Hb & Hc & Hd' & He & Hentry).
    eexists (_ :: outs). split.
    + simpl. rewrite Hentry, Hmap. reflexivity.
    + constructor; [|exact Hall]. exists a, b, c, d, e. repeat split; auto.
Qed.

Section SprintListing.

Variable JIRA_sprints : JIRA -> pyval -> pyval -> M world (list Sprint).

(** When the library returns sprints that all carry the five attributes,
    [get_sprints] returns one dict per sprint, in the library's order, each
    with exactly the keys id, name, state, startDate, endDate and the
    sprint's values; other attributes of a sprint are left out. *)
Theorem get_sprints_in_order self w session board_id state res w' :
  session_at w self = Some session ->
  JIRA_sprints session board_id state w = (Ok res, w') ->
  forallb sprint_complete res = true ->
  exists outs,
    get_sprints JIRA_sprints self board_id state w = (Ok (PList outs), w') /\
    Forall2 (fun s o =>
               exists id name st startDate endDate,
                 dict_lookup "id" s = Some id /\
                 dict_lookup "name" s = Some name /\
                 dict_lookup "state" s = Some st /\
                 dict_lookup "startDate" s = Some startDate /\
                 dict_lookup "endDate" s = Some endDate /\
                 o = PDict [("id", id); ("name", name); ("state", st);
                            ("startDate", startDate); ("endDate", endDate)])
            res outs.
Proof.
  intros Hs Hrun Hall.
  destruct (sprint_entries_complete res Hall) as (outs & Hmap & HF).
  exists outs. split; [|exact HF].
  unfold get_sprints.
  rewrite (bind_Ok _ _ _ _ _ (getattr_auth_jira _ _ _ Hs)).
  rewrite (bind_Ok _ _ _ _ _ Hrun).
  unfold sprint_serializer. rewrite (sprint_loop_all _ _ _ Hmap).
  reflexivity.
Qed.

(** One sprint without one of the five attributes (a sprint that has not
    started has no startDate) makes [get_sprints] raise [AttributeError] for
    a missing attribute: the sprints before and after it are not returned,
    although the library call was made. *)
Theorem get_sprints_incomplete_sprint self w session board_id state
        pre s post w' :
  session_at w self = Some session ->
  JIRA_sprints session board_id state w = (Ok (pre ++ s :: post), w') ->
  forallb sprint_complete pre = true ->
  sprint_complete s = false ->
  exists a,
    In a ["id"; "name"; "state"; "startDate"; "endDate"] /\
    dict_lookup a s = None /\
    get_sprints JIRA_sprints self board_id state w =
      (Raise (AttributeError a), w').
Proof.
  intros Hs Hrun Hpre Hbad.
  destruct (sprint_entries_complete pre Hpre) as (outs & Hmap & _).
  destruct (sprint_entry_incomplete s Hbad) as (a & Hin & Hnone & Hentry).
  exists a. split; [exact Hin|]. split; [exact Hnone|].
  unfold get_sprints.
  rewrite (bind_Ok _ _ _ _ _ (getattr_auth_jira _ _ _ Hs)).
  rewrite (bind_Ok _ _ _ _ _ Hrun).
  unfold sprint_serializer.
  rewrite (sprint_loop_stops pre s post outs _ [] Hmap Hentry).
  reflexivity.
Qed.

End SprintListing.

Lemma get_sprints_in_order_witness :
  exists outs,
    get_sprints (example_sprints [running_sprint; running_sprint]) 0
                (PInt 7) (PStr "active") alice_on_a
      = (Ok (PList outs), alice_on_a) /\
    Forall2 (fun s o =>
               exists id name st startDate endDate,
                 dict_lookup "id" s = Some id /\
                 dict_lookup "name" s = Some name /\
                 dict_lookup "state" s = Some st /\
                 dict_lookup "startDate" s = Some startDate /\
                 dict_lookup "endDate" s = Some endDate /\
                 o = PDict [("id", id); ("name", name); ("state", st);
                            ("startDate", startDate); ("endDate", endDate)])
            [running_sprint; running_sprint] outs.
Proof.
  apply (get_sprints_in_order
           (example_sprints [running_sprint; running_sprint]) 0 alice_on_a
           (session_of example_settings Source.A alice) (PInt 7)
           (PStr "active") [running_sprint; running_sprint] alice_on_a);
    reflexivity.
Defined.

Lemma get_sprints_incomplete_sprint_witness :
  exists a,
    In a ["id"; "name"; "state"; "startDate"; "endDate"] /\
    dict_lookup a future_sprint = None /\
    get_sprints (example_sprints [running_sprint; future_sprint]) 0
                (PInt 7) (PStr "active,future") alice_on_a
      = (Raise (AttributeError a), alice_on_a).
Proof.
  apply (get_sprints_incomplete_sprint
           (example_sprints [running_sprint; future_sprint]) 0 alice_on_a
           (session_of example_settings Source.A alice) (PInt 7)
           (PStr "active,future") [running_sprint] future_sprint []
           alice_on_a);
    reflexivity.
Defined.

(** ** Users and issues of a search *)

(** [__normalize_jira_user_response] returns exactly when the raw user is a
    mapping with name, emailAddress, displayName and an avatarUrls mapping
    that has the 48x48 variant; the result then has the four keys username,
    email, avatar, full_name with those values. *)
Theorem normalize_jira_user_response_exactly u v :
  normalize_jira_user_response u = Ok v <->
  exists d name email urls avatar full_name,
    u = PDict d /\
    dict_lookup "name" d = Some name /\
    dict_lookup "emailAddress" d = Some email /\
    dict_lookup "avatarUrls" d = Some (PDict urls) /\
    dict_lookup "48x48" urls = Some avatar /\
    dict_lookup "displayName" d = Some full_name /\
    v = PDict [("username", name); ("email", email); ("avatar", avatar);
               ("full_name", full_name)].
Proof.
  unfold normalize_jira_user_response, getitem. split.
  - destruct u as [| | | | |d]; try discriminate.
    destruct (dict_lookup "name" d) as [name|] eqn:Hn; [|discriminate].
    destruct (dict_lookup "emailAddress" d) as [email|] eqn:He;
      [|discriminate].
    destruct (dict_lookup "avatarUrls" d) as [urls|] eqn:Hu; [|discriminate].
    destruct urls as [| | | | |urls]; try discriminate.
    destruct (dict_lookup "48x48" urls) as [avatar|] eqn:Ha; [|discriminate].
    destruct (dict_lookup "displayName" d) as [full|] eqn:Hf; [|discriminate].
    intros [= <-]. exists d, name, email, urls, avatar, full.
    repeat split; auto.
  - intros (d & name & email & urls & avatar & full
            & -> & Hn & He & Hu & Ha & Hf & ->).
    rewrite Hn, He, Hu, Ha, Hf. reflexivity.
Qed.

(** Whatever the raw issue, a normalized issue has exactly the six keys key,
    summary, reporter, status, priority, created, in this order. *)
Theorem normalize_issue_shape i v :
  normalize_issue i = Ok v ->
  exists k summary reporter status priority created,
    v = PDict [("key", k); ("summary", summary); ("reporter", reporter);
               ("status", status); ("priority", priority);
               ("created", created)].
Proof.
  unfold normalize_issue. intros H.
  repeat match type of H with
         | context [match ?r with Ok _ => _ | Raise _ => _ end] =>
             destruct r; try discriminate H
         end.
  injection H as <-. cbn. repeat eexists.
Qed.

Lemma normalize_issue_shape_witness :
  exists k summary reporter status priority created,
    PDict [("key", PStr "K-2"); ("summary", PStr "second");
           ("reporter", PNone); ("status", PStr "Open");
           ("priority", PStr "Low"); ("created", PNone)] =
    PDict [("key", k); ("summary", summary); ("reporter", reporter);
           ("status", status); ("priority", priority);
           ("created", created)].
Proof.
  apply (normalize_issue_shape issue_without_reporter_created).
  reflexivity.
Defined.

(** A reporter that is there (true in a condition) but cannot be normalized
    (say, without emailAddress) makes the normalization of its issue raise
    the reporter's exception: it is not replaced by [None]. *)
Theorem normalize_issue_reporter_fails i k fields summary reporter e :
  dict_lookup "key" i = Some k ->
  dict_lookup "fields" i = Some (PDict fields) ->
  dict_lookup "summary" fields = Some summary ->
  dict_lookup "reporter" fields = Some reporter ->
  truthy reporter = true ->
  normalize_jira_user_response reporter = Raise e ->
  normalize_issue (PDict i) = Raise e.
Proof.
  intros Hk Hf Hs Hr Ht He. unfold normalize_issue, getitem, get.
  rewrite Hk, Hf, Hs, Hr, Ht, He. reflexivity.
Qed.

Lemma normalize_issue_reporter_fails_witness :
  normalize_issue issue_hidden_email = Raise (KeyError "emailAddress").
Proof.
  apply (normalize_issue_reporter_fails
           [("key", PStr "K-6");
            ("fields",
              PDict [("summary", PStr "sixth");
                     ("reporter",
                       PDict [("name", PStr "carol");
                              ("avatarUrls",
                                PDict [("48x48", PStr "c48.png")]);
                              ("displayName", PStr "Carol C.")]);
                     ("status", PDict [("name", PStr "Open")]);
                     ("priority", PDict [("name", PStr "High")])])]
           (PStr "K-6")
           [("summary", PStr "sixth");
            ("reporter",
              PDict [("name", PStr "carol");
                     ("avatarUrls", PDict [("48x48", PStr "c48.png")]);
                     ("displayName", PStr "Carol C.")]);
            ("status", PDict [("name", PStr "Open")]);
            ("priority", PDict [("name", PStr "High")])]
           (PStr "sixth")
           (PDict [("name", PStr "carol");
                   ("avatarUrls", PDict [("48x48", PStr "c48.png")]);
                   ("displayName", PStr "Carol C.")])
           (KeyError "emailAddress"));
    reflexivity.
Defined.

Lemma normalize_loop_all items outs issues :
  map normalize_issue items = map Ok outs ->
  normalize_loop items issues = Ok (issues ++ outs).
Proof.
  revert outs issues; induction items as [|i items IH]; intros [|o outs] acc;
    simpl; try discriminate.
  - intros _. now rewrite app_nil_r.
  - intros [= -> Hrest]. rewrite (IH _ _ Hrest), <- app_assoc. reflexivity.
Qed.

Lemma normalize_loop_stops pre i post outs e issues :
  map normalize_issue pre = map Ok outs ->
  normalize_issue i = Raise e ->
  normalize_loop (pre ++ i :: post) issues = Raise e.
Proof.
  revert outs issues; induction pre as [|p pre IH]; intros [|o outs] acc;
    simpl; try discriminate.
  - intros _ ->. reflexivity.
  - intros [= -> Hrest] He. now apply (IH outs).
Qed.

Lemma dict_lookup_del_other k k' d :
  String.eqb k' k = false ->
  dict_lookup k (dict_del k' d) = dict_lookup k d.
Proof.
  intros Hne. induction d as [|[k0 v] d IH]; simpl; [reflexivity|].
  destruct (String.eqb k' k0) eqn:E0; simpl.
  - apply String.eqb_eq in E0; subst k0.
    rewrite String.eqb_sym, Hne. exact IH.
  - destruct (String.eqb k k0); [reflexivity|exact IH].
Qed.

Lemma dict_lookup_del_same k d : dict_lookup k (dict_del k d) = None.
Proof.
  induction d as [|[k0 v] d IH]; simpl; [reflexivity|].
  destruct (String.eqb k k0) eqn:E0; simpl; [exact IH|].
  now rewrite E0.
Qed.

(** The issues the loop of the normalizer runs over. *)
Lemma normalize_response_run (jira_response : pydict) items :
  dict_lookup "issues" jira_response = Some (PList items) ->
  fst (normalize_jira_issues_response jira_response) =
  match normalize_loop items [] with
  | Ok issues => Ok (PList issues)
  | Raise e => Raise e
  end.
Proof.
  intros Hi.
  unfold normalize_jira_issues_response, bind, get_state, put_state, ret,
    lift, getitem.
  destruct (dict_contains "expand" jira_response); cbn [fst snd].
  - rewrite (dict_lookup_del_other "issues" "expand") by reflexivity.
    rewrite Hi. cbn [iter]. now destruct (normalize_loop items []).
  - rewrite Hi. cbn [iter]. now destruct (normalize_loop items []).
Qed.

(** In place, the normalizer takes "expand" out of the response it was
    given and changes no other key, whether it returns or raises. *)
Theorem normalize_response_strips_expand_only (jira_response : pydict) :
  let after := snd (normalize_jira_issues_response jira_response) in
  dict_lookup "expand" after = None /\
  forall k, String.eqb "expand" k = false ->
            dict_lookup k after = dict_lookup k jira_response.
Proof.
  cbv zeta. rewrite normalize_response_state. split.
  - apply dict_lookup_del_same.
  - intros k Hk. now apply dict_lookup_del_other.
Qed.

Section SearchRun.

Variable remote : Remote.

(** [search_issues] on a facade with a session, step by step. *)
Lemma search_issues_run self w session jql fields start_at :
  session_at w self = Some session ->
  search_issues remote self jql fields start_at w =
  (match remote_search_issues remote (log w) session jql fields start_at 10
   with
   | Accepted res => fst (normalize_jira_issues_response res)
   | Rejected st tx => Raise (JIRAError st tx)
   end,
   logged w (SearchIssues session jql fields start_at 10)).
Proof.
  intros Hs. unfold search_issues.
  rewrite (bind_Ok _ _ _ _ _ (getattr_auth_jira _ _ _ Hs)).
  unfold JIRA_search_issues, bind, outbound, with_local, ret.
  destruct (remote_search_issues remote (log w) session jql fields start_at 10);
    [|reflexivity].
  cbn [fst]. now destruct (fst (normalize_jira_issues_response a)).
Qed.

(** [search_issues] sends one search with the caller's jql, fields and
    offset and a page size of 10, whatever comes of it; an error of the
    server passes through, and an answer goes to the normalizer. *)
Theorem search_issues_one_request self w session jql fields start_at :
  session_at w self = Some session ->
  search_issues remote self jql fields start_at w =
  (match remote_search_issues remote (log w) session jql fields start_at 10
   with
   | Accepted res => fst (normalize_jira_issues_response res)
   | Rejected st tx => Raise (JIRAError st tx)
   end,
   logged w (SearchIssues session jql fields start_at 10)).
Proof. exact (search_issues_run self w session jql fields start_at). Qed.

(** When every raw issue of the answer can be normalized, [search_issues]
    returns the normalized issues one for one, in the server's order. *)
Theorem search_issues_in_order self w session jql fields start_at
        res items outs :
  session_at w self = Some session ->
  remote_search_issues remote (log w) session jql fields start_at 10
    = Accepted res ->
  dict_lookup "issues" res = Some (PList items) ->
  map normalize_issue items = map Ok outs ->
  fst (search_issues remote self jql fields start_at w) = Ok (PList outs).
Proof.
  intros Hs Hacc Hi Hmap.
  rewrite (search_issues_run _ _ _ _ _ _ Hs), Hacc. cbn [fst].
  rewrite (normalize_response_run _ _ Hi), (normalize_loop_all _ _ _ Hmap).
  reflexivity.
Qed.

(** The first raw issue that cannot be normalized makes [search_issues]
    raise its exception: the issues normalized before it and the ones after
    it are not returned; the search itself was sent. *)
Theorem search_issues_first_failure self w session jql fields start_at
        res pre i post outs e :
  session_at w self = Some session ->
  remote_search_issues remote (log w) session jql fields start_at 10
    = Accepted res ->
  dict_lookup "issues" res = Some (PList (pre ++ i :: post)) ->
  map normalize_issue pre = map Ok outs ->
  normalize_issue i = Raise e ->
  search_issues remote self jql fields start_at w =
  (Raise e, logged w (SearchIssues session jql fields start_at 10)).
Proof.
  intros Hs Hacc Hi Hmap He.
  rewrite (search_issues_run _ _ _ _ _ _ Hs), Hacc.
  rewrite (normalize_response_run _ _ Hi),
    (normalize_loop_stops _ _ _ _ _ _ Hmap He).
  reflexivity.
Qed.

End SearchRun.

Lemma search_issues_one_request_witness :
  search_issues (search_remote [issue_without_status]) 0 (PStr "project = K")
                (PList [PStr "summary"]) (PInt 20) alice_on_a =
  (Raise (KeyError "status"),
   logged alice_on_a
          (SearchIssues (session_of example_settings Source.A alice)
                        (PStr "project = K") (PList [PStr "summary"])
                        (PInt 20) 10)).
Proof.
  apply (search_issues_one_request (search_remote [issue_without_status]) 0
           alice_on_a (session_of example_settings Source.A alice)
           (PStr "project = K") (PList [PStr "summary"]) (PInt 20)).
  reflexivity.
Defined.

Lemma search_issues_in_order_witness :
  fst (search_issues
         (search_remote [issue_without_reporter_created; full_issue]) 0
         (PStr "project = K") (PList [PStr "summary"]) (PInt 0) alice_on_a) =
  Ok (PList [PDict [("key", PStr "K-2"); ("summary", PStr "second");
                    ("reporter", PNone); ("status", PStr "Open");
                    ("priority", PStr "Low"); ("created", PNone)];
             PDict [("key", PStr "K-1"); ("summary", PStr "first");
                    ("reporter",
                      PDict [("username", PStr "alice");
                             ("email", PStr "alice@example.org");
                             ("avatar", PStr "a48.png");
                             ("full_name", PStr "Alice A.")]);
                    ("status", PStr "Open"); ("priority", PStr "High");
                    ("created", PStr "2024-01-01T00:00:00.000+0000")]]).
Proof.
  apply (search_issues_in_order
           (search_remote [issue_without_reporter_created; full_issue]) 0
           alice_on_a (session_of example_settings Source.A alice)
           (PStr "project = K") (PList [PStr "summary"]) (PInt 0)
           (page [issue_without_reporter_created; full_issue])
           [issue_without_reporter_created; full_issue]);
    reflexivity.
Defined.

Lemma search_issues_first_failure_witness :
  search_issues
    (search_remote [full_issue; issue_hidden_email; full_issue]) 0
    (PStr "project = K") (PList [PStr "summary"]) (PInt 0) alice_on_a =
  (Raise (KeyError "emailAddress"),
   logged alice_on_a
          (SearchIssues (session_of example_settings Source.A alice)
                        (PStr "project = K") (PList [PStr "summary"])
                        (PInt 0) 10)).
Proof.
  apply (search_issues_first_failure
           (search_remote [full_issue; issue_hidden_email; full_issue]) 0
           alice_on_a (session_of example_settings Source.A alice)
           (PStr "project = K") (PList [PStr "summary"]) (PInt 0)
           (page [full_issue; issue_hidden_email; full_issue])
           [full_issue] issue_hidden_email [full_issue]
           [PDict [("key", PStr "K-1"); ("summary", PStr "first");
                   ("reporter",
                     PDict [("username", PStr "alice");
                            ("email", PStr "alice@example.org");
                            ("avatar", PStr "a48.png");
                            ("full_name", PStr "Alice A.")]);
                   ("status", PStr "Open"); ("priority", PStr "High");
                   ("created", PStr "2024-01-01T00:00:00.000+0000")]]
           (KeyError "emailAddress"));
    reflexivity.
Defined.

(** ** What [create_ticket] gives back *)

Section TicketOutcome.

Variable remote : Remote.
Variable py_str : pyval -> string.

(** With selector A and a draft that has product_id and name, the request
    is sent; when the server creates the issue, [create_ticket] raises
    [AttributeError] instead of returning its key, and when the server
    refuses, the server's error passes through. *)
Theorem create_ticket_a_outcome self w session data product_id name :
  source_at w self = Some (Src Source.A) ->
  session_at w self = Some session ->
  dict_lookup "product_id" data = Some product_id ->
  dict_lookup "name" data = Some name ->
  create_ticket remote py_str self data w =
  (match remote_create_issue remote (log w) session
           [("project", PDict [("id", product_id)]);
            ("issuetype", PDict [("id", PInt 10001)]);
            ("summary", name)]
   with
   | Accepted _ => Raise (AttributeError "key")
   | Rejected st tx => Raise (JIRAError st tx)
   end,
   logged w (CreateIssue session
               [("project", PDict [("id", product_id)]);
                ("issuetype", PDict [("id", PInt 10001)]);
                ("summary", name)])).
Proof.
  intros Hsrc Hs Hp Hn.
  erewrite (create_ticket_dispatch remote py_str self w Source.A)
    by (try exact Hsrc; apply create_ticket_in_a_run; eassumption).
  now destruct (remote_create_issue remote (log w) session _).
Qed.

(** With selector B, a draft whose product is there but is no mapping (null,
    a string, a number, a list) makes [create_ticket] raise
    [AttributeError] for [.get] before anything is sent. *)
Theorem create_ticket_b_product_not_a_mapping self w session req data
        name as_a i_want so_that product :
  source_at w self = Some (Src Source.B) ->
  session_at w self = Some session ->
  request_at w self = Some req ->
  dict_lookup "name" data = Some name ->
  dict_lookup "as_a" data = Some as_a ->
  dict_lookup "i_want" data = Some i_want ->
  dict_lookup "so_that" data = Some so_that ->
  dict_lookup "product" data = Some product ->
  get product "name" = Raise (AttributeError "get") ->
  create_ticket remote py_str self data w = (Raise (AttributeError "get"), w).
Proof.
  intros Hsrc Hs Hr Hn Ha Hi Ht Hp Hget.
  erewrite (create_ticket_dispatch remote py_str self w Source.B data
              (Raise (AttributeError "get")) w Hsrc); [reflexivity|].
  unfold create_ticket_in_b, bind, lift, getitem.
  rewrite (getattr_auth_jira _ _ _ Hs); cbv beta iota.
  rewrite Hn; cbv beta iota.
  rewrite (getattr_request _ _ _ Hr); cbv beta iota.
  rewrite Ha, Hi, Ht, Hp; cbv beta iota.
  rewrite Hget. reflexivity.
Qed.

End TicketOutcome.

Lemma create_ticket_a_outcome_witness :
  create_ticket example_remote example_str 0 task_draft alice_on_a =
  (Raise (AttributeError "key"),
   logged alice_on_a
          (CreateIssue (session_of example_settings Source.A alice)
             [("project", PDict [("id", PInt 10001)]);
              ("issuetype", PDict [("id", PInt 10001)]);
              ("summary", PStr "Export")])).
Proof.
  apply (create_ticket_a_outcome example_remote example_str 0 alice_on_a
           (session_of example_settings Source.A alice) task_draft);
    reflexivity.
Defined.

Lemma create_ticket_b_product_not_a_mapping_witness :
  create_ticket example_remote example_str 0
                [("name", PStr "Export"); ("as_a", PStr "a");
                 ("i_want", PStr "b"); ("so_that", PStr "c");
                 ("product", PNone)]
                alice_on_b =
  (Raise (AttributeError "get"), alice_on_b).
Proof.
  apply (create_ticket_b_product_not_a_mapping example_remote example_str 0
           alice_on_b (session_of example_settings Source.B alice) alice
           [("name", PStr "Export"); ("as_a", PStr "a");
            ("i_want", PStr "b"); ("so_that", PStr "c"); ("product", PNone)]
           (PStr "Export") (PStr "a") (PStr "b") (PStr "c") PNone);
    reflexivity.
Defined.

(** ** What a failed construction leaves behind *)

Section FailedConstruction.

Variable settings : Settings.
Variable remote : Remote.
Variable py_str : pyval -> string.

(** [__new__], with the session the object it hands out carries. *)
Lemma Jira_new_session w :
  wf_world w = true ->
  exists self o w0,
    Jira_new w = (Ok self, w0) /\
    nth_error (heap w0) self = Some o /\
    _instance w0 = Some self /\
    log w0 = log w /\
    auth_jira o = match _instance w with
                  | Some r => session_at w r
                  | None => None
                  end.
Proof.
  unfold wf_world, Jira_new, session_at.
  destruct (_instance w) as [r|] eqn:Hi.
  - intros Hlt. apply Nat.ltb_lt in Hlt.
    destruct (nth_error (heap w) r) as [o|] eqn:Hn.
    + exists r, o, w. repeat split; auto.
    + apply nth_error_None in Hn. lia.
  - intros _. exists (length (heap w)), new_obj. eexists.
    split; [reflexivity|]. simpl. repeat split.
    rewrite nth_error_app2, Nat.sub_diag by lia. reflexivity.
Qed.

(** [__init__] with a member of [Source] whose server refuses the session. *)
Lemma Jira_init_refused w self o req s st tx :
  nth_error (heap w) self = Some o ->
  remote_connect remote (log w) (session_of settings s req) = Rejected st tx ->
  Jira_init settings remote py_str self req (Src s) w =
  (Raise (JIRAError st tx),
   {| heap := set_nth self {| source := Some (Src s);
                              request := Some req;
                              auth_jira := auth_jira o |} (heap w);
      _instance := _instance w;
      log := log w ++ [Connect (session_of settings s req)] |}).
Proof.
  intros Ho Hrej. unfold Jira_init, set_source, set_request.
  rewrite (bind_Ok _ _ _ _ _ (update_obj_run _ _ _ _ Ho)).
  erewrite bind_Ok
    by (apply update_obj_run; cbn [heap]; eapply nth_error_set_nth, Ho).
  cbn [heap _instance log]. rewrite set_nth_twice.
  cbn [source request auth_jira].
  set (w2 := {| heap := _; _instance := _; log := _ |}).
  assert (Hn : nth_error (heap w2) self =
               Some {| source := Some (Src s); request := Some req;
                       auth_jira := auth_jira o |})
    by (eapply nth_error_set_nth, Ho).
  assert (Hs : source_at w2 self = Some (Src s))
    by (unfold source_at; now rewrite Hn).
  assert (Hr : request_at w2 self = Some req)
    by (unfold request_at; now rewrite Hn).
  apply bind_Raise. unfold define_connection_source.
  rewrite (bind_Ok _ _ _ _ _ (getattr_source _ _ _ Hs)).
  destruct s; unfold connect_to_a, connect_to_b;
    rewrite (bind_Ok _ _ _ _ _ (getattr_request _ _ _ Hr));
    unfold JIRA_new; apply bind_Raise;
    apply outbound_rejected; exact Hrej.
Qed.

(** A construction with a selector outside [Source] raises, and the shared
    instance keeps the rejected selector and the new request beside the
    session it had before (none in a process that never built a facade). *)
Theorem Jira_invalid_source_leaves_attributes w req v :
  wf_world w = true ->
  exists self w',
    Jira settings remote py_str req (NotSource v) w =
      (Raise (ValueError ("Invalid source: " ++ py_str v)), w') /\
    _instance w' = Some self /\
    source_at w' self = Some (NotSource v) /\
    request_at w' self = Some req /\
    session_at w' self = match _instance w with
                         | Some r => session_at w r
                         | None => None
                         end.
Proof.
  intros Hwf.
  destruct (Jira_new_session w Hwf)
    as (self & o & w0 & Hnew & Ho & Hi & _ & Hauth).
  exists self. eexists. unfold Jira. rewrite (bind_Ok _ _ _ _ _ Hnew).
  erewrite bind_Raise by (apply Jira_init_invalid; exact Ho).
  split; [reflexivity|]. split; [exact Hi|].
  unfold source_at, request_at, session_at; cbn [heap].
  rewrite (nth_error_set_nth _ _ _ _ Ho). cbn. repeat split. exact Hauth.
Qed.

(** A construction whose server refuses the session raises the server's
    error after the request for the session was sent, and the shared
    instance keeps the new selector and the new request beside the session
    it had before: the three no longer belong together. *)
Theorem Jira_refused_session_leaves_attributes w req s st tx :
  wf_world w = true ->
  remote_connect remote (log w) (session_of settings s req) = Rejected st tx ->
  exists self w',
    Jira settings remote py_str req (Src s) w =
      (Raise (JIRAError st tx), w') /\
    log w' = log w ++ [Connect (session_of settings s req)] /\
    _instance w' = Some self /\
    source_at w' self = Some (Src s) /\
    request_at w' self = Some req /\
    session_at w' self = match _instance w with
                         | Some r => session_at w r
                         | None => None
                         end.
Proof.
  intros Hwf Hrej.
  destruct (Jira_new_session w Hwf)
    as (self & o & w0 & Hnew & Ho & Hi & Hl & Hauth).
  rewrite <- Hl in Hrej.
  exists self. eexists. unfold Jira. rewrite (bind_Ok _ _ _ _ _ Hnew).
  erewrite bind_Raise by (apply Jira_init_refused; eassumption).
  split; [reflexivity|]. cbn [log _instance]. split; [now rewrite Hl|].
  split; [exact Hi|].
  unfold source_at, request_at, session_at; cbn [heap].
  rewrite (nth_error_set_nth _ _ _ _ Ho). cbn. repeat split. exact Hauth.
Qed.

End FailedConstruction.

Lemma Jira_invalid_source_leaves_attributes_witness :
  exists self w',
    Jira example_settings example_remote example_str
         bob (NotSource (PStr "a")) alice_on_a =
      (Raise (ValueError ("Invalid source: " ++ example_str (PStr "a"))), w') /\
    _instance w' = Some self /\
    source_at w' self = Some (NotSource (PStr "a")) /\
    request_at w' self = Some bob /\
    session_at w' self = match _instance alice_on_a with
                         | Some r => session_at alice_on_a r
                         | None => None
                         end.
Proof.
  apply (Jira_invalid_source_leaves_attributes example_settings
           example_remote example_str alice_on_a bob (PStr "a")).
  reflexivity.
Defined.

Lemma Jira_refused_session_leaves_attributes_witness :
  exists self w',
    Jira example_settings refusing_remote example_str
         bob (Src Source.B) alice_on_a =
      (Raise (JIRAError 401 "Unauthorized"), w') /\
    log w' = log alice_on_a ++ [Connect (session_of example_settings
                                                    Source.B bob)] /\
    _instance w' = Some self /\
    source_at w' self = Some (Src Source.B) /\
    request_at w' self = Some bob /\
    session_at w' self = match _instance alice_on_a with
                         | Some r => session_at alice_on_a r
                         | None => None
                         end.
Proof.
  apply (Jira_refused_session_leaves_attributes example_settings
           refusing_remote example_str alice_on_a bob Source.B
           401%Z "Unauthorized");
    reflexivity.
Defined.

(** ** What the methods leave alone *)

Lemma bind_snd_preserves (R : world -> world -> Prop) {A B}
      (c : M world A) (k : A -> M world B) :
  (forall x y z, R x y -> R y z -> R x z) ->
  (forall w, R w (snd (c w))) ->
  (forall a w, R w (snd (k a w))) ->
  forall w, R w (snd (bind c k w)).
Proof.
  intros Htrans Hc Hk w. unfold bind. specialize (Hc w).
  destruct (c w) as [[a|e] w1]; cbn [snd] in *.
  - eapply Htrans; [exact Hc|apply Hk].
  - exact Hc.
Qed.

Section Frames.

Variable settings : Settings.
Variable remote : Remote.
Variable py_str : pyval -> string.

(** Same objects with the same attributes, same class attribute. *)
#[local] Abbreviation same_objects :=
  (fun w w' : world => heap w' = heap w /\ _instance w' = _instance w).

(** As many objects, same class attribute. *)
#[local] Abbreviation same_shape :=
  (fun w w' : world =>
     length (heap w') = length (heap w) /\ _instance w' = _instance w).

Lemma same_objects_trans (x y z : world) :
  same_objects x y -> same_objects y z -> same_objects x z.
Proof. intros [H1 H2] [H3 H4]. split; congruence. Qed.

Lemma same_shape_trans (x y z : world) :
  same_shape x y -> same_shape y z -> same_shape x z.
Proof. intros [H1 H2] [H3 H4]. split; congruence. Qed.

Lemma getattr_same {A} name (field : jira_obj -> option A) self w :
  snd (getattr name field self w) = w.
Proof.
  unfold getattr. destruct (nth_error (heap w) self) as [o|]; [|reflexivity].
  now destruct (field o).
Qed.

Lemma outbound_same_objects {A} c (answer : list call -> reply A) w :
  same_objects w (snd (outbound c answer w)).
Proof. unfold outbound. destruct (answer (log w)); split; reflexivity. Qed.

Lemma update_obj_same_shape self f w :
  same_shape w (snd (update_obj self f w)).
Proof.
  unfold update_obj. destruct (nth_error (heap w) self); cbn; split; auto.
  apply length_set_nth.
Qed.

Ltac frame_step trans :=
  first
    [ apply (bind_snd_preserves _ _ _ trans); [intros ?|intros ? ?]
    | rewrite getattr_same; split; reflexivity
    | apply outbound_same_objects
    | split; reflexivity ].

(** [create_ticket], [add_comment], [get_first_board] and [search_issues]
    assign no attribute and leave [Jira._instance] alone, whatever their
    arguments and however they end: the facade is bound to the same
    selector, request and session after them as before. *)
Theorem operations_leave_attributes self w :
  (forall data,
      heap (snd (create_ticket remote py_str self data w)) = heap w /\
      _instance (snd (create_ticket remote py_str self data w))
        = _instance w) /\
  (forall comment issue_key,
      heap (snd (add_comment remote self comment issue_key w)) = heap w /\
      _instance (snd (add_comment remote self comment issue_key w))
        = _instance w) /\
  (forall product_id,
      heap (snd (get_first_board remote self product_id w)) = heap w /\
      _instance (snd (get_first_board remote self product_id w))
        = _instance w) /\
  (forall jql fields start_at,
      heap (snd (search_issues remote self jql fields start_at w)) = heap w /\
      _instance (snd (search_issues remote self jql fields start_at w))
        = _instance w).
Proof.
  split; [|split; [|split]].
  - intros data. change (same_objects w
                           (snd (create_ticket remote py_str self data w))).
    unfold create_ticket.
    frame_step same_objects_trans; [frame_step same_objects_trans|].
    frame_step same_objects_trans; [|unfold lift; frame_step same_objects_trans].
    match goal with
    | |- context [match ?x with Src _ => _ | NotSource _ => _ end] =>
        destruct x as [[|]|v]
    end.
    + unfold create_ticket_in_a, JIRA_create_issue, lift, ret.
      repeat frame_step same_objects_trans.
    + unfold create_ticket_in_b, JIRA_create_issue, lift, ret.
      repeat frame_step same_objects_trans.
    + unfold raise. frame_step same_objects_trans.
  - intros comment issue_key.
    change (same_objects w
              (snd (add_comment remote self comment issue_key w))).
    unfold add_comment, JIRA_add_comment.
    repeat frame_step same_objects_trans.
  - intros product_id.
    change (same_objects w (snd (get_first_board remote self product_id w))).
    unfold get_first_board, JIRA_boards.
    frame_step same_objects_trans; [frame_step same_objects_trans|].
    frame_step same_objects_trans; [frame_step same_objects_trans|].
    match goal with
    | |- context [match ?x with [] => _ | _ :: _ => _ end] => destruct x
    end; unfold raise, ret; frame_step same_objects_trans.
  - intros jql fields start_at.
    change (same_objects w
              (snd (search_issues remote self jql fields start_at w))).
    unfold search_issues, JIRA_search_issues, with_local, ret.
    repeat frame_step same_objects_trans.
Qed.

(** [__init__] allocates nothing and leaves [Jira._instance] alone. *)
Lemma Jira_init_same_shape self req src w :
  same_shape w (snd (Jira_init settings remote py_str self req src w)).
Proof.
  revert w. unfold Jira_init, set_source, set_request, set_auth_jira.
  apply (bind_snd_preserves _ _ _ same_shape_trans);
    [intros w; apply update_obj_same_shape|intros _ w].
  revert w. apply (bind_snd_preserves _ _ _ same_shape_trans);
    [intros w; apply update_obj_same_shape|intros _ w].
  revert w. apply (bind_snd_preserves _ _ _ same_shape_trans);
    [|intros a w; apply update_obj_same_shape].
  unfold define_connection_source.
  apply (bind_snd_preserves _ _ _ same_shape_trans);
    [intros w; rewrite getattr_same; split; reflexivity|intros src' w].
  assert (Hconn : forall (session : JIRA) w0,
             same_shape w0 (snd (JIRA_new remote session w0))).
  { intros session w0. revert w0. unfold JIRA_new.
    apply (bind_snd_preserves _ _ _ same_shape_trans).
    - intros w0. destruct (outbound_same_objects (Connect session)
        (fun past => remote_connect remote past session) w0) as [-> ->].
      split; reflexivity.
    - intros; split; reflexivity. }
  destruct src' as [[|]|v]; revert w.
  - unfold connect_to_a. apply (bind_snd_preserves _ _ _ same_shape_trans);
      [intros w; rewrite getattr_same; split; reflexivity|].
    intros r w; apply Hconn.
  - unfold connect_to_b. apply (bind_snd_preserves _ _ _ same_shape_trans);
      [intros w; rewrite getattr_same; split; reflexivity|].
    intros r w; apply Hconn.
  - intros w; split; reflexivity.
Qed.

(** One construction, however it ends, keeps "no object and no instance, or
    one object at address 0 that is the instance". *)
Lemma Jira_keeps_singleton req src w :
  match _instance w with
  | None => heap w = []
  | Some r => r = 0%nat /\ length (heap w) = 1%nat
  end ->
  let w' := snd (Jira settings remote py_str req src w) in
  _instance w' = Some 0%nat /\ length (heap w') = 1%nat.
Proof.
  intros Hinv. cbv zeta.
  assert (Hnew : exists w0,
             Jira_new w = (Ok 0%nat, w0) /\
             _instance w0 = Some 0%nat /\ length (heap w0) = 1%nat).
  { unfold Jira_new. destruct (_instance w) as [r|] eqn:Hi.
    - destruct Hinv as [-> Hlen]. exists w. auto.
    - rewrite Hinv. eexists. split; [reflexivity|]. split; reflexivity. }
  destruct Hnew as (w0 & Hnew & Hi0 & Hlen0).
  unfold Jira. rewrite (bind_Ok _ _ _ _ _ Hnew).
  pose proof (bind_snd_preserves _ _ (fun _ => ret 0%nat) same_shape_trans
                (Jira_init_same_shape 0 req src)
                (fun _ w1 => conj eq_refl eq_refl) w0) as [H1 H2].
  rewrite H1, H2. split; assumption.
Qed.

(** However many facades a program constructs, with whatever selectors and
    requests and whether or not the constructions succeed, the process holds
    at most one [Jira] object, and [Jira._instance], once set, is that
    object. *)
Theorem constructions_one_object calls :
  let w := constructions settings remote py_str calls fresh in
  (length (heap w) <= 1)%nat /\
  (forall self, _instance w = Some self ->
                self = 0%nat /\ length (heap w) = 1%nat).
Proof.
  cbv zeta.
  assert (Hgen : forall calls w,
             match _instance w with
             | None => heap w = []
             | Some r => r = 0%nat /\ length (heap w) = 1%nat
             end ->
             match _instance (constructions settings remote py_str calls w) with
             | None => heap (constructions settings remote py_str calls w) = []
             | Some r =>
                 r = 0%nat /\
                 length (heap (constructions settings remote py_str calls w))
                 = 1%nat
             end).
  { clear calls. induction calls as [|[req src] calls IH]; intros w Hinv;
      [exact Hinv|].
    cbn [constructions]. apply IH.
    destruct (Jira_keeps_singleton req src w Hinv) as [-> Hlen].
    split; [reflexivity|exact Hlen]. }
  specialize (Hgen calls fresh eq_refl).
  destruct (_instance (constructions settings remote py_str calls fresh)).
  - destruct Hgen as [-> Hlen]. split; [lia|].
    intros self [= <-]. split; [reflexivity|exact Hlen].
  - rewrite Hgen. split; [cbn; lia|discriminate].
Qed.

End Frames.

(** ** Sessions and the methods that use them *)

Lemma getattr_auth_jira_unset w self :
  session_at w self = None ->
  getattr "auth_jira" auth_jira self w =
  (Raise (AttributeError "auth_jira"), w).
Proof.
  unfold session_at, getattr.
  destruct (nth_error (heap w) self) as [o|]; [|reflexivity].
  now intros ->.
Qed.

Section Sessions.

Variable settings : Settings.
Variable remote : Remote.
Variable py_str : pyval -> string.
Variable JIRA_transition_issue : JIRA -> pyval -> pyval -> M world unit.
Variable JIRA_add_issues_to_sprint : JIRA -> pyval -> pyval -> M world unit.
Variable JIRA_sprints : JIRA -> pyval -> pyval -> M world (list Sprint).

(** On an instance that has no session (the one a failed first construction
    leaves in [Jira._instance]), every method that goes through the session
    raises [AttributeError] for [auth_jira] and calls nothing. *)
Theorem methods_without_session self w :
  session_at w self = None ->
  (forall comment issue_key,
      add_comment remote self comment issue_key w =
        (Raise (AttributeError "auth_jira"), w)) /\
  (forall transition issue_key,
      change_transition JIRA_transition_issue self transition issue_key w =
        (Raise (AttributeError "auth_jira"), w)) /\
  (forall sprint_id issue_keys,
      add_issues_to_sprint JIRA_add_issues_to_sprint self sprint_id
                           issue_keys w =
        (Raise (AttributeError "auth_jira"), w)) /\
  (forall product_id,
      get_first_board remote self product_id w =
        (Raise (AttributeError "auth_jira"), w)) /\
  (forall board_id state,
      get_sprints JIRA_sprints self board_id state w =
        (Raise (AttributeError "auth_jira"), w)) /\
  (forall jql fields start_at,
      search_issues remote self jql fields start_at w =
        (Raise (AttributeError "auth_jira"), w)).
Proof.
  intros Hs. pose proof (getattr_auth_jira_unset w self Hs) as Hget.
  repeat split; intros;
    unfold add_comment, change_transition, add_issues_to_sprint,
      get_first_board, get_sprints, search_issues;
    apply bind_Raise; exact Hget.
Qed.

(** After two constructions in a row, a comment added through the
    reference the first construction returned goes out on the session of
    the second: its server, its caller name. *)
Theorem add_comment_after_second_construction w r1 s1 r2 s2
        comment issue_key :
  wf_world w = true ->
  remote_connect remote (log w) (session_of settings s1 r1) = Accepted tt ->
  remote_connect remote (log w ++ [Connect (session_of settings s1 r1)])
                 (session_of settings s2 r2) = Accepted tt ->
  exists first w1 second w2,
    Jira settings remote py_str r1 (Src s1) w = (Ok first, w1) /\
    Jira settings remote py_str r2 (Src s2) w1 = (Ok second, w2) /\
    snd (add_comment remote first comment issue_key w2) =
      logged w2 (AddComment (session_of settings s2 r2) issue_key comment).
Proof.
  intros Hwf H1 H2.
  destruct (Jira_bound settings remote py_str w r1 s1 Hwf H1)
    as (self & w1 & Hrun1 & _ & Hi1 & Hwf1 & Hlog1 & _).
  rewrite <- Hlog1 in H2.
  destruct (Jira_bound settings remote py_str w1 r2 s2 Hwf1 H2)
    as (self' & w2 & Hrun2 & Hobj2 & _ & _ & _ & Hsame).
  destruct (Hsame self Hi1) as [<- _].
  exists self, w1, self, w2. split; [exact Hrun1|]. split; [exact Hrun2|].
  assert (Hs : session_at w2 self = Some (session_of settings s2 r2))
    by (unfold session_at; now rewrite Hobj2).
  unfold add_comment.
  rewrite (bind_Ok _ _ _ _ _ (getattr_auth_jira _ _ _ Hs)).
  unfold JIRA_add_comment, outbound.
  now destruct (remote_add_comment remote (log w2) _ issue_key comment).
Qed.

(** A construction reads the settings of the selected server only: with
    the other server's entry changed in any way, it runs the same. *)
Theorem Jira_reads_selected_settings settings' req s w :
  match s with
  | Source.A => settings_A settings = settings_A settings'
  | Source.B => settings_B settings = settings_B settings'
  end ->
  Jira settings remote py_str req (Src s) w =
  Jira settings' remote py_str req (Src s) w.
Proof.
  intros Hsel.
  assert (Hinit : forall self w0,
             Jira_init settings remote py_str self req (Src s) w0 =
             Jira_init settings' remote py_str self req (Src s) w0).
  { intros self w0. unfold Jira_init, set_source, set_request.
    destruct (nth_error (heap w0) self) as [o|] eqn:Ho.
    - rewrite !(bind_Ok _ _ _ _ _ (update_obj_run _ _ _ _ Ho)).
      match goal with
      | |- context [bind (update_obj self ?f) _ ?w1] =>
          assert (E2 : update_obj self f w1 =
                       (Ok tt, {| heap := set_nth self
                                            (f {| source := Some (Src s);
                                                  request := request o;
                                                  auth_jira := auth_jira o |})
                                            (heap w1);
                                  _instance := _instance w1;
                                  log := log w1 |}))
            by (erewrite update_obj_run
                  by (cbn [heap]; eapply nth_error_set_nth, Ho);
                reflexivity)
      end.
      rewrite !(bind_Ok _ _ _ _ _ E2). clear E2.
      cbn [heap _instance log source request auth_jira].
      rewrite set_nth_twice.
      set (w2 := {| heap := _; _instance := _; log := _ |}).
      assert (Hsrc : source_at w2 self = Some (Src s)).
      { unfold source_at, w2; cbn [heap].
        now rewrite (nth_error_set_nth _ _ _ _ Ho). }
      assert (Hdef : define_connection_source settings remote py_str self w2 =
                     define_connection_source settings' remote py_str self w2).
      { unfold define_connection_source.
        rewrite !(bind_Ok _ _ _ _ _ (getattr_source _ _ _ Hsrc)).
        destruct s; unfold connect_to_a, connect_to_b; now rewrite Hsel. }
      unfold bind. now rewrite Hdef.
    - unfold define_connection_source, update_obj, getattr, bind.
      repeat (progress (try rewrite Ho; cbv beta iota)). reflexivity. }
  unfold Jira, bind. destruct (Jira_new w) as [[self|e] w0]; [|reflexivity].
  now rewrite Hinit.
Qed.

End Sessions.

Lemma methods_without_session_witness :
  let w := snd (Jira example_settings example_remote example_str
                     bob (NotSource (PStr "c")) fresh) in
  add_comment example_remote 0 (PStr "hi") (PStr "T-1") w =
    (Raise (AttributeError "auth_jira"), w) /\
  get_sprints (example_sprints [running_sprint]) 0 (PInt 7) (PStr "active") w =
    (Raise (AttributeError "auth_jira"), w).
Proof.
  cbv zeta.
  destruct (methods_without_session example_remote
              (fun _ _ _ => ret tt) (fun _ _ _ => ret tt)
              (example_sprints [running_sprint]) 0
              (snd (Jira example_settings example_remote example_str
                         bob (NotSource (PStr "c")) fresh))
              eq_refl)
    as (Hcomment & _ & _ & _ & Hsprints & _).
  split; [apply Hcomment|apply Hsprints].
Defined.

Lemma add_comment_after_second_construction_witness :
  exists first w1 second w2,
    Jira example_settings example_remote example_str alice (Src Source.A)
         fresh = (Ok first, w1) /\
    Jira example_settings example_remote example_str bob (Src Source.B) w1
      = (Ok second, w2) /\
    snd (add_comment example_remote first (PStr "hi") (PStr "T-1") w2) =
      logged w2 (AddComment (session_of example_settings Source.B bob)
                            (PStr "T-1") (PStr "hi")).
Proof.
  apply (add_comment_after_second_construction example_settings
           example_remote example_str fresh alice Source.A bob Source.B
           (PStr "hi") (PStr "T-1"));
    reflexivity.
Defined.

Lemma Jira_reads_selected_settings_witness :
  Jira example_settings example_remote example_str alice (Src Source.A) fresh
  = Jira {| settings_A := settings_A example_settings;
            settings_B := {| cfg_url := "https://elsewhere.example";
                             cfg_username := "nobody";
                             cfg_password := "" |} |}
         example_remote example_str alice (Src Source.A) fresh.
Proof.
  apply (Jira_reads_selected_settings example_settings example_remote
           example_str
           {| settings_A := settings_A example_settings;
              settings_B := {| cfg_url := "https://elsewhere.example";
                               cfg_username := "nobody";
                               cfg_password := "" |} |}
           alice Source.A fresh).
  reflexivity.
Defined.
